(** * alphafold2_mcp: the helper scripts, the MCP server wrappers and the
      job manager they drive, embedded in Rocq.

    Python [str] values are modelled as [string], one [ascii] per code point
    below 256; a [dict] whose iteration order matters is an association list
    in insertion order; the job registry is a [gmap] from job ids to records. *)

From Stdlib Require Import ZArith Ascii String List Lia Bool Sorting.Sorted Sorting.Permutation.
From Stdlib Require Import Numbers.DecimalString.
From stdpp Require Import base gmap strings list sorting.

Import ListNotations.
Local Open Scope Z_scope.

(** ** Python values and string primitives *)

Module Py.

(** The values a keyword argument of the scripts can carry. *)
Inductive value : Type :=
| VNone : value
| VBool : bool -> value
| VInt : Z -> value
| VStr : string -> value.

(** [str(n)] for an [int]: decimal digits, a leading minus sign when negative. *)
Definition str_of_int (n : Z) : string :=
  NilZero.string_of_int (Z.to_int n).

(** [str(v)] / [format(v, '')], which is what an f-string field applies. *)
Definition str (v : value) : string :=
  match v with
  | VNone => "None"
  | VBool true => "True"
  | VBool false => "False"
  | VInt n => str_of_int n
  | VStr s => s
  end.

(** [isinstance(v, bool)]. *)
Definition is_bool (v : value) : bool :=
  match v with VBool _ => true | _ => false end.

(** [v is not None]. *)
Definition is_not_none (v : value) : bool :=
  match v with VNone => false | _ => true end.

(** [s.replace(a, b)] for one-character [a] and [b]. *)
Fixpoint replace_char (a b : ascii) (s : string) : string :=
  match s with
  | EmptyString => EmptyString
  | String c rest =>
      String (if Ascii.eqb c a then b else c) (replace_char a b rest)
  end.

(** [s.startswith(p)]. *)
Definition startswith (p s : string) : bool := String.prefix p s.

(** Truthiness of a [str]: the empty string is falsy. *)
Definition truthy (s : string) : bool :=
  match s with EmptyString => false | String _ _ => true end.

End Py.

(** ** scripts/lib/utils.py *)

Module Utils.
Import Py.

(** [**kwargs]: the extra keyword arguments in call order. *)
Definition kwargs := list (string * value).

(** One turn of the loop over [kwargs.items()], on the list being built. *)
Definition add_kwarg (cmd_parts : list string) (kv : string * value) : list string :=
  let '(key, v) := kv in
  if is_not_none v then
    let cli_key := replace_char "_" "-" key in
    if is_bool v then
      match v with
      | VBool true => cmd_parts ++ ["--" +:+ cli_key]
      | _ => cmd_parts
      end
    else cmd_parts ++ ["--" +:+ cli_key +:+ "=" +:+ str v]
  else cmd_parts.

Definition build_alphafold_command
    (fasta_path output_dir alphafold_script : string)
    (data_dir : option string)
    (model_preset db_preset max_template_date : string)
    (num_predictions_per_model : option Z)
    (kw : kwargs) : list string :=
  let cmd_parts :=
    [ "python";
      alphafold_script;
      "--fasta_paths=" +:+ fasta_path;
      "--output_dir=" +:+ output_dir;
      "--model_preset=" +:+ model_preset;
      "--db_preset=" +:+ db_preset;
      "--max_template_date=" +:+ max_template_date ] in
  let cmd_parts :=
    match data_dir with
    | Some d => if truthy d then cmd_parts ++ ["--data_dir=" +:+ d] else cmd_parts
    | None => cmd_parts
    end in
  let cmd_parts :=
    match num_predictions_per_model with
    | Some n => cmd_parts ++ ["--num_predictions_per_model=" +:+ str_of_int n]
    | None => cmd_parts
    end in
  fold_left add_kwarg kw cmd_parts.

Record resources : Type := {
  estimated_cpu_time : string;
  estimated_memory : string;
  disk_space : string;
  gpu_recommended : string
}.

Definition estimate_resources (sequence_length : nat) (is_multimer : bool) : resources :=
  let '(cpu_time, memory) :=
    if (sequence_length <=? 100)%nat then ("10-30 minutes", "8-16 GB")
    else if (sequence_length <=? 300)%nat then ("1-3 hours", "16-32 GB")
    else if (sequence_length <=? 1000)%nat then ("6-24 hours", "32-64 GB")
    else ("1-7 days", "64-128 GB") in
  let '(cpu_time, memory) :=
    if is_multimer
    then (cpu_time +:+ " (2-10x longer for multimer)",
          memory +:+ " (may need more for large complexes)")
    else (cpu_time, memory) in
  {| estimated_cpu_time := cpu_time;
     estimated_memory := memory;
     disk_space := "2.6TB (full databases) or 600GB (reduced databases)";
     gpu_recommended := "Yes (optional but significantly faster)" |}.

(** The entries of [create_sample_sequences()] the batch script uses. *)
Definition insulin_chain_a : string := "GIVEQCCTSICSLYQLENYCN".
Definition insulin_chain_b : string := "FVNQHLCGSHLVEALYLVCGERGFFYTPKT".
Definition small_protein : string :=
  "MALWMRLLPLLALLALWGPDPAAAFVNQHLCGSHLVEALYLVCGERGFFYTPKT".

(** What one keyword argument adds to the argv. *)
Definition kwarg_tokens (kv : string * value) : list string :=
  add_kwarg [] kv.

Example str_of_int_pos : str_of_int 5 = "5".
Proof. reflexivity. Qed.

Example str_of_int_zero : str_of_int 0 = "0".
Proof. reflexivity. Qed.

Example str_of_int_neg : str_of_int (-12) = "-12".
Proof. reflexivity. Qed.

Example build_monomer_default :
  build_alphafold_command "p.fasta" "out" "run_alphafold.py" None
                          "monomer" "reduced_dbs" "2022-01-01" None [] =
  [ "python"; "run_alphafold.py"; "--fasta_paths=p.fasta"; "--output_dir=out";
    "--model_preset=monomer"; "--db_preset=reduced_dbs";
    "--max_template_date=2022-01-01" ].
Proof. reflexivity. Qed.

Example build_multimer_extra :
  build_alphafold_command "c.fasta" "out" "run_alphafold.py" (Some "/db")
                          "multimer" "full_dbs" "2022-01-01" (Some 5)
                          [("use_gpu_relax", VBool true); ("random_seed", VInt 7);
                           ("benchmark", VBool false); ("models_to_relax", VNone)] =
  [ "python"; "run_alphafold.py"; "--fasta_paths=c.fasta"; "--output_dir=out";
    "--model_preset=multimer"; "--db_preset=full_dbs";
    "--max_template_date=2022-01-01"; "--data_dir=/db";
    "--num_predictions_per_model=5"; "--use-gpu-relax"; "--random-seed=7" ].
Proof. reflexivity. Qed.

(** The loop only ever appends: its result is the incoming list followed by
    each argument's own tokens, in call order. *)
Lemma fold_add_kwarg (kw : kwargs) (acc : list string) :
  fold_left add_kwarg kw acc = acc ++ flat_map kwarg_tokens kw.
Proof.
  revert acc. induction kw as [|[key v] kw IH]; intros acc; simpl.
  - by rewrite app_nil_r.
  - rewrite IH. unfold kwarg_tokens at 2, add_kwarg.
    destruct v as [|[]| |]; simpl; by rewrite <- ?app_assoc, ?app_nil_r.
Qed.

Lemma build_alphafold_command_app fp od sc dd mp dp mtd np (kw1 kw2 : kwargs) :
  build_alphafold_command fp od sc dd mp dp mtd np (kw1 ++ kw2) =
  build_alphafold_command fp od sc dd mp dp mtd np kw1 ++ flat_map kwarg_tokens kw2.
Proof.
  unfold build_alphafold_command. rewrite fold_left_app.
  by rewrite (fold_add_kwarg kw2).
Qed.

Lemma build_alphafold_command_prefix fp od sc dd mp dp mtd np (kw : kwargs) :
  build_alphafold_command fp od sc dd mp dp mtd np kw =
  build_alphafold_command fp od sc dd mp dp mtd np [] ++ flat_map kwarg_tokens kw.
Proof. apply (build_alphafold_command_app fp od sc dd mp dp mtd np [] kw). Qed.

(** C1, as the claim states it, fails on the fixed arguments: [model_preset]
    is written into the argv with its underscore, so the hyphenated token the
    claim asks for is not there. *)
Lemma model_preset_keeps_underscore :
  ~ In ("--" +:+ replace_char "_" "-" "model_preset" +:+ "=" +:+ "monomer")
       (build_alphafold_command "p.fasta" "out" "run_alphafold.py" None
                                "monomer" "reduced_dbs" "2022-01-01" None []).
Proof.
  simpl. intros H. repeat (destruct H as [H|H]; [discriminate H|]). exact H.
Qed.

(** C1 (amended): every extra keyword argument whose value is present and not
    boolean yields the token [--name=value] with the underscores of its name
    turned into hyphens; the fixed arguments keep their underscores:
    [model_preset], [db_preset] and [max_template_date] are always rendered as
    [--model_preset=v], [--db_preset=v], [--max_template_date=v], [data_dir]
    as [--data_dir=v] when it is a non-empty string, and
    [num_predictions_per_model] as [--num_predictions_per_model=v] when it is
    not None. *)
Theorem build_alphafold_command_renders fp od sc dd mp dp mtd np (kw : kwargs) :
  let argv := build_alphafold_command fp od sc dd mp dp mtd np kw in
  (forall key v, In (key, v) kw -> v <> VNone -> is_bool v = false ->
     In ("--" +:+ replace_char "_" "-" key +:+ "=" +:+ str v) argv) /\
  In ("--model_preset=" +:+ mp) argv /\
  In ("--db_preset=" +:+ dp) argv /\
  In ("--max_template_date=" +:+ mtd) argv /\
  (forall d, dd = Some d -> d <> "" -> In ("--data_dir=" +:+ d) argv) /\
  (forall n, np = Some n ->
     In ("--num_predictions_per_model=" +:+ str_of_int n) argv).
Proof.
  intros argv. subst argv. rewrite build_alphafold_command_prefix.
  split; [|repeat split].
  - intros key v Hin Hnone Hbool. apply in_or_app. right.
    apply in_flat_map. exists (key, v). split; [done|].
    destruct v as [|b| |]; try done; simpl; by left.
  - apply in_or_app. left. unfold build_alphafold_command.
    destruct dd as [[|c d]|], np; simpl; tauto.
  - apply in_or_app. left. unfold build_alphafold_command.
    destruct dd as [[|c d]|], np; simpl; tauto.
  - apply in_or_app. left. unfold build_alphafold_command.
    destruct dd as [[|c d]|], np; simpl; tauto.
  - intros d -> Hd. apply in_or_app. left. unfold build_alphafold_command.
    destruct d as [|c d]; [done|]. destruct np; simpl; tauto.
  - intros n ->. apply in_or_app. left. unfold build_alphafold_command.
    destruct dd as [[|c d]|]; simpl; tauto.
Qed.

Lemma build_alphafold_command_renders_witness :
  let argv := build_alphafold_command "c.fasta" "out" "run_alphafold.py" (Some "/db")
                "multimer" "full_dbs" "2022-01-01" (Some 5)
                [("use_gpu_relax", VBool true); ("random_seed", VInt 7)] in
  In "--random-seed=7" argv /\ In "--data_dir=/db" argv /\
  In "--num_predictions_per_model=5" argv /\ In "--model_preset=multimer" argv.
Proof.
  pose proof (build_alphafold_command_renders "c.fasta" "out" "run_alphafold.py"
                (Some "/db") "multimer" "full_dbs" "2022-01-01" (Some 5)
                [("use_gpu_relax", VBool true); ("random_seed", VInt 7)])
    as (Hkw & Hmp & _ & _ & Hdd & Hnp).
  intros argv. repeat split.
  - apply (Hkw "random_seed" (VInt 7)); [right; left; reflexivity|discriminate|reflexivity].
  - apply (Hdd "/db"); [reflexivity|discriminate].
  - apply (Hnp 5). reflexivity.
  - exact Hmp.
Defined.

(** C2: an extra argument whose value is None, or the boolean False, adds
    nothing to the argv (dropping it from the call leaves the argv
    unchanged); the boolean True adds exactly the one presence-only token
    [--name] (name hyphenated) at the argument's place; and a [data_dir] or
    [num_predictions_per_model] that is None adds nothing between the seven
    leading tokens, the other one's token and the extra arguments' tokens. *)
Theorem build_alphafold_command_omits fp od sc dd mp dp mtd np (kw1 kw2 : kwargs) key :
  let build := build_alphafold_command fp od sc dd mp dp mtd np in
  build (kw1 ++ (key, VNone) :: kw2) = build (kw1 ++ kw2) /\
  build (kw1 ++ (key, VBool false) :: kw2) = build (kw1 ++ kw2) /\
  (exists post,
     build (kw1 ++ kw2) = build kw1 ++ post /\
     build (kw1 ++ (key, VBool true) :: kw2) =
       build kw1 ++ ["--" +:+ replace_char "_" "-" key] ++ post) /\
  build_alphafold_command fp od sc None mp dp mtd np (kw1 ++ kw2) =
    [ "python"; sc; "--fasta_paths=" +:+ fp; "--output_dir=" +:+ od;
      "--model_preset=" +:+ mp; "--db_preset=" +:+ dp;
      "--max_template_date=" +:+ mtd ] ++
    match np with
    | Some n => ["--num_predictions_per_model=" +:+ str_of_int n]
    | None => []
    end ++ flat_map kwarg_tokens (kw1 ++ kw2) /\
  build_alphafold_command fp od sc dd mp dp mtd None (kw1 ++ kw2) =
    [ "python"; sc; "--fasta_paths=" +:+ fp; "--output_dir=" +:+ od;
      "--model_preset=" +:+ mp; "--db_preset=" +:+ dp;
      "--max_template_date=" +:+ mtd ] ++
    match dd with
    | Some d => if truthy d then ["--data_dir=" +:+ d] else []
    | None => []
    end ++ flat_map kwarg_tokens (kw1 ++ kw2).
Proof.
  intros build. subst build. rewrite !build_alphafold_command_app.
  repeat split.
  - by exists (flat_map kwarg_tokens kw2).
  - rewrite (build_alphafold_command_prefix _ _ _ _ _ _ _ _ kw1), flat_map_app.
    unfold build_alphafold_command. by destruct np.
  - rewrite (build_alphafold_command_prefix _ _ _ _ _ _ _ _ kw1), flat_map_app.
    unfold build_alphafold_command. by destruct dd as [[|c d]|].
Qed.

End Utils.

(** ** Exceptions and files *)

Module Os.

(** The exceptions the scripts raise or meet. *)
Inductive exn : Type :=
| FileNotFoundError : string -> exn
| OSError : string -> exn.

(** A computation that returns or raises. *)
Inductive result (A : Type) : Type :=
| Ok : A -> result A
| Raise : exn -> result A.
Arguments Ok {A} _.
Arguments Raise {A} _.

Definition bind {A B : Type} (m : result A) (k : A -> result B) : result B :=
  match m with
  | Ok a => k a
  | Raise e => Raise e
  end.

(** [str(e)]. *)
Definition exn_message (e : exn) : string :=
  match e with
  | FileNotFoundError m => m
  | OSError m => m
  end.

(** What a path names: nothing, a text file with its stored characters, or
    something that exists but whose [open]/read raises (a directory, bytes
    that do not decode, no permission). *)
Inductive node : Type :=
| Missing : node
| Text : string -> node
| Unreadable : string -> node.

Definition LF : ascii := "010"%char.
Definition CR : ascii := "013"%char.

(** Text-mode reading ([open(path, 'r')], [newline=None]): universal
    newlines, every [\r\n] and every lone [\r] arrives as [\n]. *)
Fixpoint universal_newlines (s : string) : string :=
  match s with
  | EmptyString => EmptyString
  | String c rest =>
      if Ascii.eqb c CR then
        match rest with
        | String c' rest' =>
            if Ascii.eqb c' LF then String LF (universal_newlines rest')
            else String LF (universal_newlines rest)
        | EmptyString => String LF EmptyString
        end
      else String c (universal_newlines rest)
  end.

(** [for line in f]: the lines of the text, each with its terminating [\n],
    the last one without when the text does not end in [\n]. *)
Fixpoint split_keepends (s : string) : list string :=
  match s with
  | EmptyString => []
  | String c rest =>
      if Ascii.eqb c LF then String LF EmptyString :: split_keepends rest
      else match split_keepends rest with
           | [] => [String c EmptyString]
           | line :: lines => String c line :: lines
           end
  end.

Definition read_lines (content : string) : list string :=
  split_keepends (universal_newlines content).

End Os.

(** ** scripts/lib/io.py *)

Module Io.
Import Py Os.

(** [c.isspace()] on the code points below 256: tab to carriage return,
    the four separators 0x1c-0x1f, space, NEL and the no-break space. *)
Definition is_space (c : ascii) : bool :=
  let n := N_of_ascii c in
  ((9 <=? n) && (n <=? 13) || (28 <=? n) && (n <=? 32) ||
   (n =? 133) || (n =? 160))%N.

Fixpoint lstrip (s : string) : string :=
  match s with
  | EmptyString => EmptyString
  | String c rest => if is_space c then lstrip rest else s
  end.

Fixpoint rstrip (s : string) : string :=
  match s with
  | EmptyString => EmptyString
  | String c rest =>
      match rstrip rest with
      | EmptyString => if is_space c then EmptyString else String c EmptyString
      | kept => String c kept
      end
  end.

(** [s.strip()]. *)
Definition strip (s : string) : string := rstrip (lstrip s).

(** [s[1:]]. *)
Definition drop_first (s : string) : string :=
  match s with
  | EmptyString => EmptyString
  | String _ rest => rest
  end.

(** [''.join(parts)]. *)
Definition join (parts : list string) : string := String.concat "" parts.

(** A [Dict[str, str]] in insertion order. *)
Definition dict := list (string * string).

(** [d[key] = v]: an existing key keeps its place, a new one goes last. *)
Fixpoint dict_set (key v : string) (d : dict) : dict :=
  match d with
  | [] => [(key, v)]
  | (k, w) :: rest =>
      if String.eqb k key then (k, v) :: rest else (k, w) :: dict_set key v rest
  end.

(** The three locals of [load_fasta]'s loop. *)
Record loader : Type := {
  sequences : dict;
  current_header : option string;
  current_sequence : list string
}.

(** "Save previous sequence": [if current_header: sequences[...] = ...]. *)
Definition flush (st : loader) : dict :=
  match current_header st with
  | Some h =>
      if truthy h then dict_set h (join (current_sequence st)) (sequences st)
      else sequences st
  | None => sequences st
  end.

(** The body of [for line in f]. *)
Definition load_line (st : loader) (raw : string) : loader :=
  let line := strip raw in
  if startswith ">" line then
    {| sequences := flush st;
       current_header := Some (drop_first line);
       current_sequence := [] |}
  else if truthy line then
    {| sequences := sequences st;
       current_header := current_header st;
       current_sequence := current_sequence st ++ [line] |}
  else st.

(** [load_fasta] on the text of an existing, readable file. *)
Definition load_fasta_text (content : string) : dict :=
  flush (fold_left load_line (read_lines content)
           {| sequences := []; current_header := None; current_sequence := [] |}).

Definition load_fasta (path : string) (f : node) : result dict :=
  match f with
  | Missing => Raise (FileNotFoundError ("FASTA file not found: " +:+ path))
  | Unreadable msg => Raise (OSError msg)
  | Text content => Ok (load_fasta_text content)
  end.

(** [range(0, stop, step)] for a positive [step]. *)
Definition range_step (stop step : nat) : list nat :=
  map (fun k => (k * step)%nat) (seq 0 ((stop + step - 1) / step)%nat).

(** [sequence[i:i+80]]. *)
Definition slice80 (sequence : string) (i : nat) : string :=
  String.substring i 80 sequence.

(** One turn of the loop over [sequences.items()], on the text written so far. *)
Definition save_entry (out : string) (entry : string * string) : string :=
  let '(header, sequence) := entry in
  let header := if startswith ">" header then header else ">" +:+ header in
  let out := out +:+ (header +:+ String LF EmptyString) in
  fold_left (fun out i => out +:+ (slice80 sequence i +:+ String LF EmptyString))
            (range_step (String.length sequence) 80) out.

(** The text [save_fasta] writes (the file is opened with mode ['w'], so
    this is the whole file afterwards). *)
Definition save_fasta (seqs : dict) : string :=
  fold_left save_entry seqs EmptyString.

Record analysis : Type := {
  num_sequences : nat;
  total_length : nat;
  sequence_info : list (string * nat);
  is_multimer : bool;
  complex_type : string
}.

(** [analyze_fasta_content] once [load_fasta] has returned. *)
Definition analyze_sequences (seqs : dict) : analysis :=
  let sequence_info := map (fun '(header, s) => (header, String.length s)) seqs in
  let num_sequences := length seqs in
  let total_length := list_sum (map snd sequence_info) in
  let seq_values := map snd seqs in
  let complex_type :=
    if (num_sequences =? 1)%nat then "monomer"
    else if (num_sequences =? 2)%nat then
      match seq_values with
      | v0 :: v1 :: _ => if String.eqb v0 v1 then "homodimer" else "heterodimer"
      | _ => "heterodimer"
      end
    else
      let all_same :=
        match seq_values with
        | [] => true
        | v0 :: _ => forallb (fun s => String.eqb s v0) seq_values
        end in
      if all_same then "homo-" +:+ str_of_int (Z.of_nat num_sequences) +:+ "mer"
      else "multimer" in
  {| num_sequences := num_sequences;
     total_length := total_length;
     sequence_info := sequence_info;
     is_multimer := (1 <? num_sequences)%nat;
     complex_type := complex_type |}.

Definition analyze_fasta_content (path : string) (f : node) : result analysis :=
  bind (load_fasta path f) (fun seqs => Ok (analyze_sequences seqs)).

(** Every character of [s] passes [p]. *)
Fixpoint string_forall (p : ascii -> bool) (s : string) : bool :=
  match s with
  | EmptyString => true
  | String c rest => p c && string_forall p rest
  end.

Definition is_not (a : ascii) (c : ascii) : bool := negb (Ascii.eqb c a).

(** The headers C9 speaks of, as the claim words them: non-empty, no leading
    ['>'], no newline, no leading or trailing whitespace. *)
Definition header_as_claimed (h : string) : Prop :=
  h <> EmptyString /\ startswith ">" h = false /\
  string_forall (is_not LF) h = true /\ lstrip h = h /\ rstrip h = h.

(** The same with carriage returns excluded as well. *)
Definition header_ok (h : string) : Prop :=
  header_as_claimed h /\ string_forall (is_not CR) h = true.

(** The sequences C9 speaks of: no whitespace and no ['>'] anywhere. *)
Definition sequence_ok (s : string) : Prop :=
  string_forall (fun c => negb (is_space c) && is_not ">" c) s = true.

Definition entry_as_claimed (entry : string * string) : Prop :=
  header_as_claimed (fst entry) /\ sequence_ok (snd entry).

Definition entry_ok (entry : string * string) : Prop :=
  header_ok (fst entry) /\ sequence_ok (snd entry).

(** The lines [save_fasta] writes for one entry, without their newlines. *)
Definition chunks (sequence : string) : list string :=
  map (slice80 sequence) (range_step (String.length sequence) 80).

Definition entry_lines (entry : string * string) : list string :=
  let '(header, sequence) := entry in
  (if startswith ">" header then header else ">" +:+ header) :: chunks sequence.

Definition with_newline (line : string) : string := line +:+ String LF EmptyString.

Definition unlines (lines : list string) : string :=
  String.concat "" (map with_newline lines).

Example save_two :
  save_fasta [("a|x", "GIVEQ"); ("b", "")] =
  ">a|x" +:+ String LF "GIVEQ" +:+ String LF ">b" +:+ String LF "".
Proof. reflexivity. Qed.

Example load_two :
  load_fasta_text (">a|x " +:+ String LF " GIV" +:+ String CR (String LF "EQ")
                   +:+ String LF "" +:+ String LF ">b") =
  [("a|x", "GIVEQ"); ("b", "")].
Proof. reflexivity. Qed.

Example load_headerless : load_fasta_text ("GIVEQ" +:+ String LF "") = [].
Proof. reflexivity. Qed.

Example load_duplicate_header :
  load_fasta_text (">a" +:+ String LF "GG" +:+ String LF ">b" +:+ String LF "T"
                   +:+ String LF ">a" +:+ String LF "CC") =
  [("a", "CC"); ("b", "T")].
Proof. reflexivity. Qed.

Example analyze_homotrimer :
  complex_type (analyze_sequences [("a", "GG"); ("b", "GG"); ("c", "GG")]) = "homo-3mer".
Proof. reflexivity. Qed.

Example analyze_empty :
  complex_type (analyze_sequences []) = "homo-0mer".
Proof. reflexivity. Qed.

(** *** Classification *)

(** C7: on every readable file [analyze_fasta_content] returns, with
    [num_sequences] the number of entries [load_fasta] found, [is_multimer]
    true exactly when [num_sequences > 1] and [complex_type] equal to
    ['monomer'] exactly when [num_sequences == 1]. *)
Theorem analyze_fasta_content_classifies (path content : string) :
  exists a,
    analyze_fasta_content path (Text content) = Ok a /\
    num_sequences a = length (load_fasta_text content) /\
    (is_multimer a = true <-> (1 < num_sequences a)%nat) /\
    (complex_type a = "monomer" <-> num_sequences a = 1%nat).
Proof.
  eexists. split; [reflexivity|]. split; [reflexivity|]. split.
  - simpl. apply Nat.ltb_lt.
  - simpl. destruct (load_fasta_text content) as [|[h0 s0] [|[h1 s1] [|e2 l]]]; simpl.
    + split; [discriminate|lia].
    + split; [lia|reflexivity].
    + split; [|lia]. destruct (String.eqb s0 s1); discriminate.
    + split; [|lia].
      match goal with |- (if ?b then _ else _) = _ -> _ => destruct b end;
        intros E; inversion E.
Qed.

(** *** Strings: append, substring, strip *)

Lemma append_cons (c : ascii) (s t : string) : String c s +:+ t = String c (s +:+ t).
Proof. reflexivity. Qed.

Lemma append_empty_r (s : string) : s +:+ "" = s.
Proof. induction s as [|c s IH]; [done|]. by rewrite append_cons, IH. Qed.

Lemma append_assoc (a b c : string) : (a +:+ b) +:+ c = a +:+ (b +:+ c).
Proof. induction a as [|x a IH]; [done|]. by rewrite !append_cons, IH. Qed.

Lemma join_cons (x : string) (xs : list string) : join (x :: xs) = x +:+ join xs.
Proof. unfold join. destruct xs; simpl; by rewrite ?append_empty_r. Qed.

Lemma join_app (xs ys : list string) : join (xs ++ ys) = join xs +:+ join ys.
Proof.
  induction xs as [|x xs IH]; [done|].
  change ((x :: xs) ++ ys) with (x :: (xs ++ ys)).
  by rewrite !join_cons, IH, append_assoc.
Qed.

Lemma substring_split (s : string) (a b : nat) :
  String.substring 0 a s +:+ String.substring a b s = String.substring 0 (a + b) s.
Proof.
  revert a. induction s as [|c s IH]; intros [|a]; simpl; try done.
  by rewrite append_cons, IH.
Qed.

Lemma substring_all (s : string) (n : nat) :
  (String.length s <= n)%nat -> String.substring 0 n s = s.
Proof.
  revert n. induction s as [|c s IH]; intros [|n] Hn; simpl in *; try done; try lia.
  rewrite IH; [done|lia].
Qed.

Lemma substring_forall (p : ascii -> bool) (s : string) (i n : nat) :
  string_forall p s = true -> string_forall p (String.substring i n s) = true.
Proof.
  revert i n. induction s as [|c s IH]; intros i n Hs.
  - by destruct i, n.
  - simpl in Hs. apply andb_prop in Hs as [Hc Hs].
    destruct i as [|i]; [destruct n as [|n]|]; simpl; [done| |by apply IH].
    rewrite Hc. by apply IH.
Qed.

Lemma substring_nonempty (s : string) (i n : nat) :
  (i < String.length s)%nat -> (0 < n)%nat -> String.substring i n s <> "".
Proof.
  revert i. induction s as [|c s IH]; intros i Hi Hn; simpl in Hi; [lia|].
  destruct i as [|i]; simpl.
  - destruct n; [lia|done].
  - apply IH; lia.
Qed.

Lemma string_forall_app (p : ascii -> bool) (a b : string) :
  string_forall p (a +:+ b) = string_forall p a && string_forall p b.
Proof.
  induction a as [|c a IH]; [done|].
  rewrite append_cons. simpl. by rewrite IH, andb_assoc.
Qed.

Lemma startswith_char (a x : ascii) (s : string) :
  startswith (String a EmptyString) (String x s) = Ascii.eqb x a.
Proof.
  unfold startswith.
  change (String.prefix (String a EmptyString) (String x s))
    with (if ascii_dec a x then String.prefix EmptyString s else false).
  destruct (ascii_dec a x) as [->|Hne].
  - rewrite Ascii.eqb_refl. by destruct s.
  - symmetry. apply Ascii.eqb_neq. congruence.
Qed.

Lemma rstrip_newline (s : string) : rstrip (with_newline s) = rstrip s.
Proof.
  unfold with_newline. induction s as [|c s IH]; [done|].
  rewrite append_cons. simpl. by rewrite IH.
Qed.

Lemma rstrip_no_space (s : string) :
  string_forall (fun c => negb (is_space c)) s = true -> rstrip s = s.
Proof.
  induction s as [|c s IH]; simpl; [done|]. intros H.
  apply andb_prop in H as [Hc Hs]. rewrite (IH Hs).
  destruct s; [|done]. by destruct (is_space c).
Qed.

(** *** Text lines read back *)

Lemma universal_newlines_no_cr (s : string) :
  string_forall (is_not CR) s = true -> universal_newlines s = s.
Proof.
  induction s as [|c s IH]; simpl; [done|]. intros H.
  apply andb_prop in H as [Hc Hs]. unfold is_not in Hc.
  destruct (Ascii.eqb c CR); [done|]. by rewrite (IH Hs).
Qed.

Lemma split_keepends_line (line rest : string) :
  string_forall (is_not LF) line = true ->
  split_keepends (with_newline line +:+ rest) = with_newline line :: split_keepends rest.
Proof.
  unfold with_newline. induction line as [|c line IH]; [done|]. intros H.
  simpl in H. apply andb_prop in H as [Hc Hs]. unfold is_not in Hc.
  rewrite !append_cons. simpl.
  destruct (Ascii.eqb c LF); [done|]. by rewrite (IH Hs).
Qed.

Lemma unlines_cons (line : string) (lines : list string) :
  unlines (line :: lines) = with_newline line +:+ unlines lines.
Proof. unfold unlines. apply (join_cons (with_newline line)). Qed.

Lemma unlines_app (xs ys : list string) : unlines (xs ++ ys) = unlines xs +:+ unlines ys.
Proof. unfold unlines. rewrite map_app. apply join_app. Qed.

Lemma read_lines_unlines (lines : list string) :
  Forall (fun l => string_forall (is_not LF) l = true /\
                   string_forall (is_not CR) l = true) lines ->
  read_lines (unlines lines) = map with_newline lines.
Proof.
  intros Hl. unfold read_lines. rewrite universal_newlines_no_cr.
  - induction Hl as [|l ls [Hlf _] _ IH]; [done|].
    rewrite unlines_cons, split_keepends_line by done. by rewrite IH.
  - induction Hl as [|l ls [_ Hcr] _ IH]; [done|].
    rewrite unlines_cons. unfold with_newline.
    rewrite !string_forall_app, Hcr, IH. done.
Qed.

(** *** What [save_fasta] writes *)

Lemma fold_write_chunks (sequence : string) (idxs : list nat) (out : string) :
  fold_left (fun out i => out +:+ (slice80 sequence i +:+ String LF EmptyString)) idxs out =
  out +:+ unlines (map (slice80 sequence) idxs).
Proof.
  revert out. induction idxs as [|i idxs IH]; intros out.
  - simpl. unfold unlines. simpl. by rewrite append_empty_r.
  - simpl. rewrite IH, append_assoc.
    by rewrite (unlines_cons (slice80 sequence i)).
Qed.

Lemma save_entry_unlines (out : string) (entry : string * string) :
  save_entry out entry = out +:+ unlines (entry_lines entry).
Proof.
  destruct entry as [header sequence]. unfold save_entry, entry_lines.
  rewrite fold_write_chunks, append_assoc. by rewrite unlines_cons.
Qed.

Lemma fold_save_entry (seqs : dict) (out : string) :
  fold_left save_entry seqs out = out +:+ unlines (flat_map entry_lines seqs).
Proof.
  revert out. induction seqs as [|e seqs IH]; intros out; simpl.
  - unfold unlines. simpl. by rewrite append_empty_r.
  - by rewrite IH, save_entry_unlines, append_assoc, unlines_app.
Qed.

Lemma save_fasta_unlines (seqs : dict) :
  save_fasta seqs = unlines (flat_map entry_lines seqs).
Proof. unfold save_fasta. by rewrite fold_save_entry. Qed.

(** *** The 80-character chunks *)

Lemma range_step_lt (stop i : nat) : In i (range_step stop 80) -> (i < stop)%nat.
Proof.
  unfold range_step. rewrite in_map_iff. intros (k & <- & Hk).
  apply in_seq in Hk.
  pose proof (Nat.div_mod_eq (stop + 80 - 1) 80) as E.
  pose proof (Nat.mod_upper_bound (stop + 80 - 1) 80) as U.
  lia.
Qed.

Lemma join_slices (sequence : string) (j : nat) :
  join (map (slice80 sequence) (map (fun k => (k * 80)%nat) (seq 0 j))) =
  String.substring 0 (j * 80) sequence.
Proof.
  induction j as [|j IH].
  - by destruct sequence.
  - rewrite seq_S, !map_app, join_app, IH. simpl map.
    rewrite join_cons. unfold join at 1. simpl String.concat.
    rewrite append_empty_r. unfold slice80. rewrite substring_split.
    f_equal. lia.
Qed.

Lemma join_chunks (sequence : string) : join (chunks sequence) = sequence.
Proof.
  unfold chunks, range_step. rewrite join_slices. apply substring_all.
  pose proof (Nat.div_mod_eq (String.length sequence + 80 - 1) 80) as E.
  pose proof (Nat.mod_upper_bound (String.length sequence + 80 - 1) 80) as U.
  lia.
Qed.

Lemma chunks_forall (p : ascii -> bool) (sequence : string) :
  string_forall p sequence = true ->
  Forall (fun c => c <> EmptyString /\ string_forall p c = true) (chunks sequence).
Proof.
  intros Hs. apply Forall_forall. intros c Hc. apply list_elem_of_In in Hc.
  unfold chunks in Hc. apply in_map_iff in Hc as (i & <- & Hi).
  apply range_step_lt in Hi. split.
  - apply substring_nonempty; lia.
  - by apply substring_forall.
Qed.

(** *** Reading the lines back *)

Lemma dict_set_fresh (key v : string) (d : dict) :
  ~ In key (map fst d) -> dict_set key v d = d ++ [(key, v)].
Proof.
  induction d as [|[k w] d IH]; simpl; [done|]. intros Hk.
  destruct (String.eqb_spec k key) as [->|_]; [tauto|].
  rewrite IH; [done|tauto].
Qed.

Lemma load_chunk_line (st : loader) (c : string) :
  c <> EmptyString ->
  string_forall (fun x => negb (is_space x) && is_not ">" x) c = true ->
  load_line st (with_newline c) =
  {| sequences := sequences st;
     current_header := current_header st;
     current_sequence := current_sequence st ++ [c] |}.
Proof.
  intros Hne Hc. unfold load_line.
  assert (strip (with_newline c) = c) as ->.
  { unfold strip. destruct c as [|x c]; [done|].
    pose proof Hc as Hc'. simpl in Hc'.
    apply andb_prop in Hc' as [Hx _]. apply andb_prop in Hx as [Hx _].
    unfold with_newline. rewrite append_cons. simpl lstrip.
    destruct (is_space x); [done|].
    rewrite <- append_cons. fold (with_newline (String x c)).
    rewrite rstrip_newline. apply rstrip_no_space.
    clear -Hc. induction (String x c) as [|y t IH]; [done|].
    simpl in *. apply andb_prop in Hc as [Hy Ht].
    apply andb_prop in Hy as [Hy _]. by rewrite Hy, IH. }
  destruct c as [|x c]; [done|]. simpl in Hc.
  apply andb_prop in Hc as [Hx _]. apply andb_prop in Hx as [_ Hx].
  unfold is_not in Hx. rewrite startswith_char.
  by destruct (Ascii.eqb x ">").
Qed.

Lemma load_chunk_lines (cs : list string) (st : loader) :
  Forall (fun c => c <> EmptyString /\
            string_forall (fun x => negb (is_space x) && is_not ">" x) c = true) cs ->
  fold_left load_line (map with_newline cs) st =
  {| sequences := sequences st;
     current_header := current_header st;
     current_sequence := current_sequence st ++ cs |}.
Proof.
  intros Hcs. revert st. induction Hcs as [|c cs [Hne Hc] _ IH]; intros st.
  - simpl. destruct st. simpl. by rewrite app_nil_r.
  - simpl. rewrite load_chunk_line by done. rewrite IH. simpl.
    by rewrite <- app_assoc.
Qed.

Lemma load_header_line (st : loader) (h : string) :
  h <> EmptyString -> rstrip h = h ->
  load_line st (with_newline (">" +:+ h)) =
  {| sequences := flush st; current_header := Some h; current_sequence := [] |}.
Proof.
  intros Hne Hr. unfold load_line.
  assert (strip (with_newline (">" +:+ h)) = String ">" h) as ->.
  { unfold strip. change (">" +:+ h) with (String ">" h).
    unfold with_newline at 1. rewrite append_cons. simpl lstrip.
    rewrite <- append_cons. fold (with_newline (String ">" h)).
    rewrite rstrip_newline. simpl. rewrite Hr. by destruct h. }
  by rewrite startswith_char, Ascii.eqb_refl.
Qed.

Lemma entry_lines_plain (h sq : string) :
  startswith ">" h = false -> entry_lines (h, sq) = (">" +:+ h) :: chunks sq.
Proof. intros Hgt. unfold entry_lines. by rewrite Hgt. Qed.

Lemma load_entries (es : dict) (st : loader) :
  NoDup (map fst (flush st) ++ map fst es) ->
  Forall entry_ok es ->
  flush (fold_left load_line (map with_newline (flat_map entry_lines es)) st) =
  flush st ++ es.
Proof.
  revert st. induction es as [|[h sq] es IH]; intros st Hnd Hok.
  - simpl. by rewrite app_nil_r.
  - apply Forall_cons in Hok as [[[(Hne & Hgt & _ & _ & Hr) _] Hsq] Hok].
    simpl in Hne, Hgt, Hr, Hsq.
    change (flat_map entry_lines ((h, sq) :: es))
      with (entry_lines (h, sq) ++ flat_map entry_lines es).
    rewrite (entry_lines_plain h sq Hgt).
    rewrite <- app_comm_cons, map_cons, map_app. simpl fold_left.
    rewrite fold_left_app, load_header_line by done.
    rewrite (load_chunk_lines (chunks sq)) by (by apply chunks_forall).
    simpl current_sequence. simpl sequences. simpl current_header.
    rewrite IH; [| |done].
    + unfold flush at 1. simpl. destruct h as [|c h]; [done|]. simpl truthy. cbv iota.
      rewrite join_chunks, dict_set_fresh, <- app_assoc; [done|].
      simpl in Hnd. apply NoDup_app in Hnd as (_ & Hd & _).
      intros Hin. apply list_elem_of_In in Hin. apply (Hd _ Hin). left.
    + unfold flush at 1. simpl. destruct h as [|c h]; [done|]. simpl truthy. cbv iota.
      rewrite join_chunks, dict_set_fresh.
      * rewrite map_app, <- app_assoc. exact Hnd.
      * simpl in Hnd. apply NoDup_app in Hnd as (_ & Hd & _).
        intros Hin. apply list_elem_of_In in Hin. apply (Hd _ Hin). left.
Qed.

Lemma entry_lines_clean (es : dict) :
  Forall entry_ok es ->
  Forall (fun l => string_forall (is_not LF) l = true /\
                   string_forall (is_not CR) l = true) (flat_map entry_lines es).
Proof.
  intros Hok. induction Hok as [|[h sq] es [[(_ & Hgt & Hlf & _) Hcr] Hsq] _ IH]; [constructor|].
  simpl in Hgt, Hlf, Hcr, Hsq.
  change (flat_map entry_lines ((h, sq) :: es))
    with (entry_lines (h, sq) ++ flat_map entry_lines es).
  rewrite (entry_lines_plain h sq Hgt).
  rewrite <- app_comm_cons. constructor; [|apply Forall_app; split; [|exact IH]].
  - change (">" +:+ h) with (String ">" h). simpl. by rewrite Hlf, Hcr.
  - apply Forall_forall. intros c Hc.
    pose proof (chunks_forall _ sq Hsq) as Hall.
    rewrite Forall_forall in Hall. destruct (Hall c Hc) as [_ Hp].
    clear -Hp. split.
    + induction c as [|x c IH]; [done|]. simpl in *.
      apply andb_prop in Hp as [Hx Hp]. apply andb_prop in Hx as [Hx _].
      rewrite (IH Hp), andb_true_r. unfold is_not.
      destruct (Ascii.eqb_spec x LF) as [->|]; [done|done].
    + induction c as [|x c IH]; [done|]. simpl in *.
      apply andb_prop in Hp as [Hx Hp]. apply andb_prop in Hx as [Hx _].
      rewrite (IH Hp), andb_true_r. unfold is_not.
      destruct (Ascii.eqb_spec x CR) as [->|]; [done|done].
Qed.

(** *** Round trip *)

(** C9, as the claim states it, fails: a header with a carriage return inside
    meets every condition of the claim (it is non-empty, does not start with
    ['>'], holds no [\n] and has no whitespace at either end), but text-mode
    reading ends a line at the [\r], so the rest of the header is read back
    as sequence data. *)
Lemma carriage_return_header_not_restored :
  let seqs := [("a" +:+ String CR "b", "X")] in
  NoDup (map fst seqs) /\
  Forall entry_as_claimed seqs /\
  load_fasta "f.fasta" (Text (save_fasta seqs)) = Ok [("a", "bX")] /\
  load_fasta "f.fasta" (Text (save_fasta seqs)) <> Ok seqs.
Proof.
  simpl. split; [|split; [|split]].
  - apply NoDup_cons. split; [apply not_elem_of_nil|apply NoDup_nil_2].
  - repeat constructor. discriminate.
  - reflexivity.
  - discriminate.
Qed.

(** C9 (amended): for every mapping whose headers are non-empty, do not
    start with ['>'], hold neither a newline nor a carriage return and have
    no whitespace at either end, and whose sequences hold no whitespace and
    no ['>'], [load_fasta] on the file [save_fasta] wrote returns the mapping
    itself, entries in the same order, whatever the 80-character wrapping
    did to the sequences. *)
Theorem load_fasta_save_fasta (path : string) (seqs : dict) :
  NoDup (map fst seqs) ->
  Forall entry_ok seqs ->
  load_fasta path (Text (save_fasta seqs)) = Ok seqs.
Proof.
  intros Hnd Hok. unfold load_fasta, load_fasta_text. f_equal.
  rewrite save_fasta_unlines, read_lines_unlines by (by apply entry_lines_clean).
  by rewrite load_entries.
Qed.

Lemma load_fasta_save_fasta_witness :
  let seqs :=
    [ ("insulin_chain_a|Insulin A chain", "GIVEQCCTSICSLYQLENYCN");
      ("empty", "");
      ("lysozyme",
       "KVFGRCELAAAMKRHGLDNYRGYSLGNWVCAAKFESNFNTQATNRNTDGSTDYGILQINSRWWCNDGRTPGSRNLCNIPCSALLSSDITASVNCAKKIVSDGNGMNAWVAWRNRCKGTDVQAWIRGCRL") ] in
  NoDup (map fst seqs) /\ Forall entry_ok seqs /\
  load_fasta "sample.fasta" (Text (save_fasta seqs)) = Ok seqs.
Proof.
  intros seqs.
  assert (NoDup (map fst seqs)) as Hnd.
  { repeat (constructor;
              [rewrite ?elem_of_cons, elem_of_nil; simpl; intuition discriminate|]).
    constructor. }
  assert (Forall entry_ok seqs) as Hok.
  { repeat constructor; try discriminate; vm_compute; reflexivity. }
  split; [exact Hnd|split; [exact Hok|]].
  exact (load_fasta_save_fasta "sample.fasta" seqs Hnd Hok).
Defined.

Example save_wraps_at_80 :
  map String.length
      (read_lines (save_fasta
         [("lysozyme",
           "KVFGRCELAAAMKRHGLDNYRGYSLGNWVCAAKFESNFNTQATNRNTDGSTDYGILQINSRWWCNDGRTPGSRNLCNIPCSALLSSDITASVNCAKKIVSDGNGMNAWVAWRNRCKGTDVQAWIRGCRL")])) =
  [10; 81; 50]%nat.
Proof. reflexivity. Qed.

End Io.

(** ** pathlib: the parts of [PurePosixPath] the repository uses *)

Module Pathlib.
Import Py.

(** [s.split('/')]. *)
Fixpoint split_slash (s : string) : list string :=
  match s with
  | EmptyString => [EmptyString]
  | String c rest =>
      if Ascii.eqb c "/" then EmptyString :: split_slash rest
      else match split_slash rest with
           | [] => [String c EmptyString]
           | p :: ps => String c p :: ps
           end
  end.

(** The components of a path below its root: empty and ['.'] components
    are dropped when the path is parsed. *)
Definition parts (path : string) : list string :=
  filter (fun p => p <> EmptyString /\ p <> ".") (split_slash path).

(** [Path(path).name]: the last component, [''] when there is none. *)
Definition name (path : string) : string := List.last (parts path) EmptyString.

(** [s.rfind(a)], [None] standing for -1. *)
Fixpoint rfind (a : ascii) (s : string) : option nat :=
  match s with
  | EmptyString => None
  | String c rest =>
      match rfind a rest with
      | Some i => Some (S i)
      | None => if Ascii.eqb c a then Some 0%nat else None
      end
  end.

(** [Path(path).stem] (Python up to 3.13): the name without its last
    suffix; a dot in first or last position starts no suffix. *)
Definition stem (path : string) : string :=
  let nm := name path in
  match rfind "." nm with
  | Some i =>
      if (0 <? i)%nat && (i <? String.length nm - 1)%nat
      then String.substring 0 i nm else nm
  | None => nm
  end.

(** [s.endswith(suffix)]. *)
Definition endswith (suffix s : string) : bool :=
  let ls := String.length s in
  let lx := String.length suffix in
  (lx <=? ls)%nat && String.eqb (String.substring (ls - lx) lx s) suffix.

(** [a / b] for a relative [b]. *)
Definition join (a b : string) : string := a +:+ "/" +:+ b.

Example stem_fasta : stem "examples/data/insulin_a.fasta" = "insulin_a".
Proof. reflexivity. Qed.

Example stem_two_suffixes : stem "runs/complex.v2.fa" = "complex.v2".
Proof. reflexivity. Qed.

Example stem_hidden : stem "data/.fasta" = ".fasta".
Proof. reflexivity. Qed.

Example name_trailing_slash : name "examples/data/batch/" = "batch".
Proof. reflexivity. Qed.

Example name_dot : name "." = "".
Proof. reflexivity. Qed.

End Pathlib.

(** ** scripts/batch_prediction.py *)

Module Batch.
Import Py Os.

Record config : Type := {
  model_preset_monomer : string;
  model_preset_multimer : string;
  db_preset : string;
  max_template_date : string;
  num_predictions_per_model : Z;
  msa_reuse : bool;
  demo_mode : bool;
  create_sample_if_missing : bool;
  max_concurrent : Z;
  data_dir : option string
}.

Definition DEFAULT_CONFIG : config :=
  {| model_preset_monomer := "monomer";
     model_preset_multimer := "multimer";
     db_preset := "reduced_dbs";
     max_template_date := "2022-01-01";
     num_predictions_per_model := 5;
     msa_reuse := true;
     demo_mode := true;
     create_sample_if_missing := true;
     max_concurrent := 1;
     data_dir := None |}.

(** A directory: its entries by name, in the order the system lists them. *)
Definition directory := list (string * node).

Definition lookup_entry (name : string) (d : directory) : node :=
  match List.find (fun e => String.eqb (fst e) name) d with
  | Some e => snd e
  | None => Missing
  end.

(** The four files [create_batch_sample_data] writes into a new directory. *)
Definition create_batch_sample_data : directory :=
  [ ("protein1.fasta",
     Text (Io.save_fasta [("protein1|Small test protein", Utils.insulin_chain_a)]));
    ("protein2.fasta",
     Text (Io.save_fasta [("protein2|Another test protein", Utils.small_protein)]));
    ("complex_heterodimer.fasta",
     Text (Io.save_fasta [("complex_chainA|Insulin chain A", Utils.insulin_chain_a);
                          ("complex_chainB|Insulin chain B", Utils.insulin_chain_b)]));
    ("complex_homodimer.fasta",
     Text (Io.save_fasta [("homodimer_chain1|First copy", Utils.insulin_chain_a);
                          ("homodimer_chain2|Second copy", Utils.insulin_chain_a)])) ].

Definition fasta_extensions : list string := [".fasta"; ".fa"; ".fas"; ".faa"].

(** [input_dir.glob('*' + ext)]: the entries whose name ends with [ext]. *)
Definition glob (ext : string) (d : directory) : list string :=
  List.filter (Pathlib.endswith ext) (map fst d).

(** The list [find_fasta_files] builds before sorting it. *)
Definition globbed (d : directory) : list string :=
  fold_left (fun fasta_files ext => fasta_files ++ glob ext d) fasta_extensions [].

Definition find_fasta_files (d : directory) : list string :=
  merge_sort String.le (globbed d).

(** The two dictionaries [process_single_file] can return. *)
Inductive file_result : Type :=
| Processed (file : string) (analysis : Io.analysis) (model_preset : string)
            (output_dir : string) (command : list string)
            (resources : Utils.resources)
| Failed (file : string) (error : string).

(** [result["success"]] and [result["file"]]. *)
Definition result_success (r : file_result) : bool :=
  match r with Processed _ _ _ _ _ _ => true | Failed _ _ => false end.

Definition result_file (r : file_result) : string :=
  match r with Processed f _ _ _ _ _ => f | Failed f _ => f end.

(** A successful result whose analysis is not, respectively is, a multimer. *)
Definition is_monomer_result (r : file_result) : bool :=
  match r with
  | Processed _ a _ _ _ _ => negb (Io.is_multimer a)
  | Failed _ _ => false
  end.

Definition is_multimer_result (r : file_result) : bool :=
  match r with
  | Processed _ a _ _ _ _ => Io.is_multimer a
  | Failed _ _ => false
  end.

Definition process_single_file
    (input_dir name : string) (f : node) (output_base_dir : string)
    (cfg : config) (alphafold_script : string) : file_result :=
  let fasta_file := Pathlib.join input_dir name in
  match Io.analyze_fasta_content fasta_file f with
  | Raise e => Failed name (exn_message e)
  | Ok analysis =>
      let output_dir := Pathlib.join output_base_dir (Pathlib.stem name) in
      let '(model_preset, num_predictions) :=
        if Io.is_multimer analysis
        then (model_preset_multimer cfg, Some (num_predictions_per_model cfg))
        else (model_preset_monomer cfg, None) in
      let alphafold_cmd :=
        Utils.build_alphafold_command fasta_file output_dir alphafold_script
          (data_dir cfg) model_preset (db_preset cfg) (max_template_date cfg)
          num_predictions [] in
      let resources :=
        Utils.estimate_resources (Io.total_length analysis) (Io.is_multimer analysis) in
      Processed name analysis model_preset output_dir alphafold_cmd resources
  end.

(** The locals the main loop updates. *)
Record counters : Type := {
  processed_results : list file_result;
  monomers : nat;
  multimers : nat;
  errors : nat
}.

(** The body of [for i, fasta_file in enumerate(fasta_files, 1)]. *)
Definition process_step
    (input_dir : string) (d : directory) (output_dir : string)
    (cfg : config) (alphafold_script : string)
    (st : counters) (name : string) : counters :=
  let result :=
    process_single_file input_dir name (lookup_entry name d) output_dir cfg
                        alphafold_script in
  let processed_results := processed_results st ++ [result] in
  match result with
  | Processed _ analysis _ _ _ _ =>
      if Io.is_multimer analysis
      then {| processed_results := processed_results; monomers := monomers st;
              multimers := S (multimers st); errors := errors st |}
      else {| processed_results := processed_results; monomers := S (monomers st);
              multimers := multimers st; errors := errors st |}
  | Failed _ _ =>
      {| processed_results := processed_results; monomers := monomers st;
         multimers := multimers st; errors := S (errors st) |}
  end.

(** The dictionary returned after the loop. *)
Record summary : Type := {
  success : bool;
  total_files : nat;
  monomer_count : nat;
  multimer_count : nat;
  error_count : nat;
  processed : list file_result;
  output_dir : string
}.

Inductive batch_result : Type :=
| NoFiles (error : string)
| Summary (s : summary).

(** The start of [run_batch_prediction]: a missing input directory is
    filled with the sample files when the configuration allows it, and is an
    error otherwise. [state] is [None] when the directory does not exist. *)
Definition prepare_input
    (input_dir : string) (state : option directory) (cfg : config) : result directory :=
  match state with
  | Some d => Ok d
  | None =>
      if create_sample_if_missing cfg then Ok create_batch_sample_data
      else Raise (FileNotFoundError ("Input directory not found: " +:+ input_dir))
  end.

Definition run_batch_prediction
    (input_dir : string) (state : option directory) (output_dir : option string)
    (cfg : config) (results_dir alphafold_script : string) : result batch_result :=
  bind (prepare_input input_dir state cfg) (fun d =>
    let output_dir :=
      match output_dir with
      | None => Pathlib.join results_dir "batch_prediction"
      | Some o => o
      end in
    let fasta_files := find_fasta_files d in
    match fasta_files with
    | [] => Ok (NoFiles ("No FASTA files found in " +:+ input_dir))
    | _ :: _ =>
        let st :=
          fold_left (process_step input_dir d output_dir cfg alphafold_script)
                    fasta_files
                    {| processed_results := []; monomers := 0; multimers := 0;
                       errors := 0 |} in
        Ok (Summary {| success := (errors st =? 0)%nat;
                       total_files := length fasta_files;
                       monomer_count := monomers st;
                       multimer_count := multimers st;
                       error_count := errors st;
                       processed := processed_results st;
                       output_dir := output_dir |})
    end).

Example find_sample_files :
  find_fasta_files create_batch_sample_data =
  ["complex_heterodimer.fasta"; "complex_homodimer.fasta"; "protein1.fasta";
   "protein2.fasta"].
Proof. vm_compute. reflexivity. Qed.

Example find_mixed_extensions :
  find_fasta_files [("b.fa", Text ""); ("notes.txt", Text ""); ("a.faa", Text "");
                    ("c.fasta", Unreadable "Is a directory"); ("B.fas", Text "")] =
  ["B.fas"; "a.faa"; "b.fa"; "c.fasta"].
Proof. vm_compute. reflexivity. Qed.

(** What the loop has done after any number of files: one result appended
    per file, in order, and exactly one counter raised per file. *)
Lemma process_loop input_dir (d : directory) out (cfg : config) script
      (files : list string) (st : counters) :
  let run name :=
    process_single_file input_dir name (lookup_entry name d) out cfg script in
  let st' := fold_left (process_step input_dir d out cfg script) files st in
  processed_results st' = processed_results st ++ map run files /\
  monomers st' = (monomers st + length (List.filter is_monomer_result (map run files)))%nat /\
  multimers st' = (multimers st + length (List.filter is_multimer_result (map run files)))%nat /\
  errors st' =
    (errors st + length (List.filter (fun r => negb (result_success r)) (map run files)))%nat.
Proof.
  intros run. revert st. induction files as [|name files IH]; intros st.
  - simpl. rewrite app_nil_r. repeat split; lia.
  - simpl fold_left. specialize (IH (process_step input_dir d out cfg script st name)).
    destruct IH as (Hp & Hm & Hu & He). cbv zeta. rewrite Hp, Hm, Hu, He.
    clear Hp Hm Hu He.
    unfold process_step. fold (run name). simpl map. simpl List.filter.
    destruct (run name) as [f a mp o c r|f e]; simpl.
    + destruct (Io.is_multimer a); simpl; rewrite <- app_assoc; repeat split; lia.
    + rewrite <- app_assoc. repeat split; lia.
Qed.

(** The three kinds of result are exclusive and exhaustive. *)
Lemma result_kinds (rs : list file_result) :
  (length (List.filter is_monomer_result rs) +
   length (List.filter is_multimer_result rs) +
   length (List.filter (fun r => negb (result_success r)) rs) = length rs)%nat.
Proof.
  induction rs as [|[f a mp o c r|f e] rs IH]; simpl; [done| |lia].
  destruct (Io.is_multimer a); simpl; lia.
Qed.

(** C10: when the input directory is there (or has just been filled with the
    sample files) and holds at least one FASTA file, [run_batch_prediction]
    returns its summary; in it the three counters add up to [total_files],
    [processed] has [total_files] entries, one per file found and in the order
    of the sorted file names, each counter is the number of entries of its
    kind (monomer, multimer, failed), and [success] is true exactly when
    [error_count] is 0. *)
Theorem run_batch_prediction_partitions
    input_dir (state : option directory) (out : option string) (cfg : config)
    results_dir script (d : directory) :
  prepare_input input_dir state cfg = Ok d ->
  find_fasta_files d <> [] ->
  exists s,
    run_batch_prediction input_dir state out cfg results_dir script = Ok (Summary s) /\
    (monomer_count s + multimer_count s + error_count s = total_files s)%nat /\
    length (processed s) = total_files s /\
    total_files s = length (find_fasta_files d) /\
    map result_file (processed s) = find_fasta_files d /\
    Sorted String.le (find_fasta_files d) /\
    find_fasta_files d ≡ₚ globbed d /\
    monomer_count s = length (List.filter is_monomer_result (processed s)) /\
    multimer_count s = length (List.filter is_multimer_result (processed s)) /\
    error_count s =
      length (List.filter (fun r => negb (result_success r)) (processed s)) /\
    (success s = true <-> error_count s = 0%nat).
Proof.
  intros Hprep Hfiles. unfold run_batch_prediction. rewrite Hprep. simpl bind.
  destruct (find_fasta_files d) as [|name files] eqn:E; [done|]. rewrite <- E.
  set (o := match out with None => _ | Some o => o end).
  pose proof (process_loop input_dir d o cfg script (find_fasta_files d)
                {| processed_results := []; monomers := 0; multimers := 0; errors := 0 |})
    as (Hp & Hm & Hu & He).
  simpl in Hp, Hm, Hu, He.
  eexists. split; [reflexivity|]. simpl.
  rewrite Hp, Hm, Hu, He. repeat split.
  - rewrite result_kinds. by rewrite length_map.
  - by rewrite length_map.
  - rewrite map_map. rewrite <- (map_id (find_fasta_files d)) at 2.
    apply map_ext. intros n. unfold process_single_file.
    destruct (Io.analyze_fasta_content _ _); [|done].
    by destruct (Io.is_multimer a).
  - apply Sorted_merge_sort. apply _.
  - apply merge_sort_Permutation.
  - intros H. by apply Nat.eqb_eq in H.
  - intros H. by apply Nat.eqb_eq.
Qed.

Lemma run_batch_prediction_partitions_witness :
  let d := [ ("b.fa", Text (">x" +:+ String LF "GIVEQ"));
             ("notes.txt", Text "");
             ("a.faa", Text (">x" +:+ String LF "GG" +:+ String LF ">y" +:+ String LF "TT"));
             ("c.fasta", Unreadable "Is a directory") ] in
  prepare_input "in" (Some d) DEFAULT_CONFIG = Ok d /\
  find_fasta_files d <> [] /\
  exists s,
    run_batch_prediction "in" (Some d) None DEFAULT_CONFIG "results" "run_alphafold.py"
      = Ok (Summary s) /\
    (monomer_count s + multimer_count s + error_count s = total_files s)%nat /\
    length (processed s) = total_files s /\
    map result_file (processed s) = ["a.faa"; "b.fa"; "c.fasta"] /\
    (success s = true <-> error_count s = 0%nat).
Proof.
  intros d.
  assert (find_fasta_files d = ["a.faa"; "b.fa"; "c.fasta"]) as Hfind
    by (vm_compute; reflexivity).
  assert (find_fasta_files d <> []) as Hne by (rewrite Hfind; discriminate).
  split; [reflexivity|]. split; [exact Hne|].
  destruct (run_batch_prediction_partitions "in" (Some d) None DEFAULT_CONFIG
              "results" "run_alphafold.py" d eq_refl Hne)
    as (s & Hrun & Hsum & Hlen & _ & Hfile & _ & _ & _ & _ & _ & Hsucc).
  exists s. rewrite Hfind in Hfile. tauto.
Defined.

Example run_sample_batch :
  match run_batch_prediction "missing" None None DEFAULT_CONFIG "results" "run_alphafold.py" with
  | Ok (Summary s) =>
      (success s, total_files s, monomer_count s, multimer_count s, error_count s)
  | _ => (false, 0, 0, 0, 0)%nat
  end = (true, 4, 2, 2, 0)%nat.
Proof. vm_compute. reflexivity. Qed.

Example run_with_unreadable_file :
  match run_batch_prediction "in"
          (Some [("b.fa", Text (">x" +:+ String LF "GIVEQ"));
                 ("c.fasta", Unreadable "Is a directory")])
          None DEFAULT_CONFIG "results" "run_alphafold.py" with
  | Ok (Summary s) =>
      (success s, total_files s, monomer_count s, multimer_count s, error_count s)
  | _ => (true, 0, 0, 0, 0)%nat
  end = (false, 2, 1, 0, 1)%nat.
Proof. vm_compute. reflexivity. Qed.

End Batch.

(** ** src/server.py: the tool functions *)

Module Server.
Import Py Os.

(** What the server needs from [jobs.manager.job_manager]: its six methods.
    [M] is the manager's state, [R] the dictionary a method answers with; a
    method returns or raises. *)
Class JobManager (M R : Type) : Type := {
  jm_submit_job : string -> list (string * value) -> string -> M -> M * result R;
  jm_get_job_status : string -> M -> result R;
  jm_get_job_result : string -> M -> result R;
  jm_get_job_log : string -> Z -> M -> result R;
  jm_cancel_job : string -> M -> M * result R;
  jm_list_jobs : option string -> M -> result R
}.

(** [a or b] for an [Optional[str]] [a]. *)
Definition or_else (a : option string) (b : string) : string :=
  match a with
  | Some s => if truthy s then s else b
  | None => b
  end.

(** An [Optional[str]] as a dictionary value. *)
Definition opt_value (o : option string) : value :=
  match o with Some s => VStr s | None => VNone end.

Section Tools.
Context {M R : Type} `{JobManager M R}.

(** [str(SCRIPTS_DIR)]: where the scripts are installed, without a trailing
    slash. *)
Variable SCRIPTS_DIR : string.

Definition get_job_status (job_manager : M) (job_id : string) : result R :=
  jm_get_job_status job_id job_manager.

Definition get_job_result (job_manager : M) (job_id : string) : result R :=
  jm_get_job_result job_id job_manager.

Definition get_job_log (job_manager : M) (job_id : string) (tail : Z) : result R :=
  jm_get_job_log job_id tail job_manager.

Definition cancel_job (job_manager : M) (job_id : string) : M * result R :=
  jm_cancel_job job_id job_manager.

Definition list_jobs (job_manager : M) (status : option string) : result R :=
  jm_list_jobs status job_manager.

Definition submit_monomer_prediction
    (job_manager : M) (input_file model_preset db_preset max_template_date : string)
    (data_dir output_dir job_name : option string) : M * result R :=
  let script_path := Pathlib.join SCRIPTS_DIR "monomer_prediction.py" in
  jm_submit_job script_path
    [ ("input", VStr input_file);
      ("model_preset", VStr model_preset);
      ("db_preset", VStr db_preset);
      ("max_template_date", VStr max_template_date);
      ("data_dir", opt_value data_dir);
      ("output", opt_value output_dir) ]
    (or_else job_name ("monomer_" +:+ Pathlib.stem input_file))
    job_manager.

Definition submit_multimer_prediction
    (job_manager : M) (input_file model_preset db_preset : string)
    (num_predictions_per_model : Z) (max_template_date : string)
    (data_dir output_dir job_name : option string) : M * result R :=
  let script_path := Pathlib.join SCRIPTS_DIR "multimer_prediction.py" in
  jm_submit_job script_path
    [ ("input", VStr input_file);
      ("model_preset", VStr model_preset);
      ("db_preset", VStr db_preset);
      ("num_predictions", VInt num_predictions_per_model);
      ("max_template_date", VStr max_template_date);
      ("data_dir", opt_value data_dir);
      ("output", opt_value output_dir) ]
    (or_else job_name ("multimer_" +:+ Pathlib.stem input_file))
    job_manager.

Definition submit_batch_prediction
    (job_manager : M) (input_dir db_preset max_template_date : string)
    (num_predictions_per_model : Z)
    (data_dir output_dir job_name : option string) : M * result R :=
  let script_path := Pathlib.join SCRIPTS_DIR "batch_prediction.py" in
  jm_submit_job script_path
    [ ("input_dir", VStr input_dir);
      ("db_preset", VStr db_preset);
      ("max_template_date", VStr max_template_date);
      ("num_predictions", VInt num_predictions_per_model);
      ("data_dir", opt_value data_dir);
      ("output", opt_value output_dir) ]
    (or_else job_name ("batch_" +:+ Pathlib.name input_dir))
    job_manager.

End Tools.

(** A manager that only records the calls it gets, to look at what the
    tools hand over. *)
Record submission : Type := {
  sub_script_path : string;
  sub_args : list (string * value);
  sub_job_name : string
}.

#[local] Instance recorder : JobManager (list submission) unit := {|
  jm_submit_job script args name calls :=
    (calls ++ [{| sub_script_path := script; sub_args := args; sub_job_name := name |}],
     Ok tt);
  jm_get_job_status _ _ := Ok tt;
  jm_get_job_result _ _ := Ok tt;
  jm_get_job_log _ _ _ := Ok tt;
  jm_cancel_job _ calls := (calls, Ok tt);
  jm_list_jobs _ _ := Ok tt
|}.

Example monomer_default_name :
  fst (submit_monomer_prediction "/opt/mcp/scripts" [] "examples/data/insulin_a.fasta"
         "monomer" "reduced_dbs" "2022-01-01" None None None) =
  [ {| sub_script_path := "/opt/mcp/scripts/monomer_prediction.py";
       sub_args := [ ("input", VStr "examples/data/insulin_a.fasta");
                     ("model_preset", VStr "monomer");
                     ("db_preset", VStr "reduced_dbs");
                     ("max_template_date", VStr "2022-01-01");
                     ("data_dir", VNone); ("output", VNone) ];
       sub_job_name := "monomer_insulin_a" |} ].
Proof. reflexivity. Qed.

Example batch_default_name :
  map sub_job_name
      (fst (submit_batch_prediction "/opt/mcp/scripts" [] "examples/data/batch/"
              "reduced_dbs" "2022-01-01" 5 None None None)) =
  ["batch_batch"].
Proof. reflexivity. Qed.

Example empty_name_is_replaced :
  map sub_job_name
      (fst (submit_multimer_prediction "/opt/mcp/scripts" [] "c.fasta"
              "multimer" "reduced_dbs" 5 "2022-01-01" None None (Some ""))) =
  ["multimer_c"].
Proof. reflexivity. Qed.

(** C8: with no job name supplied the name handed to the manager's
    [submit_job] is ['monomer_'] plus the stem of the input file for
    [submit_monomer_prediction], ['multimer_'] plus that stem for
    [submit_multimer_prediction] and ['batch_'] plus the name of the input
    directory for [submit_batch_prediction]; a supplied non-empty name is
    handed over unchanged. This holds whatever the manager is. *)
Theorem submit_job_name {M R : Type} `{JobManager M R}
    (SCRIPTS_DIR : string) (job_manager : M)
    (input_file input_dir model_preset db_preset max_template_date : string)
    (num_predictions_per_model : Z) (data_dir output_dir : option string) :
  let name_given job_name :=
    submit_monomer_prediction SCRIPTS_DIR job_manager input_file model_preset
        db_preset max_template_date data_dir output_dir job_name =
      jm_submit_job (Pathlib.join SCRIPTS_DIR "monomer_prediction.py")
        [ ("input", VStr input_file); ("model_preset", VStr model_preset);
          ("db_preset", VStr db_preset);
          ("max_template_date", VStr max_template_date);
          ("data_dir", opt_value data_dir); ("output", opt_value output_dir) ]
        (match job_name with
         | Some n => n
         | None => "monomer_" +:+ Pathlib.stem input_file
         end) job_manager /\
    submit_multimer_prediction SCRIPTS_DIR job_manager input_file model_preset
        db_preset num_predictions_per_model max_template_date data_dir output_dir
        job_name =
      jm_submit_job (Pathlib.join SCRIPTS_DIR "multimer_prediction.py")
        [ ("input", VStr input_file); ("model_preset", VStr model_preset);
          ("db_preset", VStr db_preset);
          ("num_predictions", VInt num_predictions_per_model);
          ("max_template_date", VStr max_template_date);
          ("data_dir", opt_value data_dir); ("output", opt_value output_dir) ]
        (match job_name with
         | Some n => n
         | None => "multimer_" +:+ Pathlib.stem input_file
         end) job_manager /\
    submit_batch_prediction SCRIPTS_DIR job_manager input_dir db_preset
        max_template_date num_predictions_per_model data_dir output_dir job_name =
      jm_submit_job (Pathlib.join SCRIPTS_DIR "batch_prediction.py")
        [ ("input_dir", VStr input_dir); ("db_preset", VStr db_preset);
          ("max_template_date", VStr max_template_date);
          ("num_predictions", VInt num_predictions_per_model);
          ("data_dir", opt_value data_dir); ("output", opt_value output_dir) ]
        (match job_name with
         | Some n => n
         | None => "batch_" +:+ Pathlib.name input_dir
         end) job_manager in
  name_given None /\ (forall n, n <> EmptyString -> name_given (Some n)).
Proof.
  intros name_given. subst name_given. split; [done|].
  intros [|c n] Hn; done.
Qed.

Lemma submit_job_name_witness :
  map sub_job_name
      (fst (submit_monomer_prediction "/opt/mcp/scripts" [] "examples/data/insulin_a.fasta"
              "monomer" "reduced_dbs" "2022-01-01" None None (Some "insulin run"))) =
  ["insulin run"].
Proof.
  pose proof (submit_job_name "/opt/mcp/scripts" ([] : list submission)
                "examples/data/insulin_a.fasta" "examples/data/batch/"
                "monomer" "reduced_dbs" "2022-01-01" 5 None None) as [_ Hgiven].
  destruct (Hgiven "insulin run") as (Hmono & _ & _); [discriminate|].
  rewrite Hmono. reflexivity.
Defined.

End Server.

(** ** jobs/manager.py: the job manager *)

Module Manager.
Import Py Os.

(** Modelled from the spec: [jobs/manager.py] is not among the sources; the
    five status values are those of section 3. *)
Inductive job_status : Type :=
| pending | running | completed | failed | cancelled.

#[global] Instance job_status_eq_dec : EqDecision job_status.
Proof. solve_decision. Defined.

(** Modelled from the spec: the three right-hand states of section 4.4 are
    the terminal ones ([jobs/manager.py] is missing). *)
Definition is_terminal (s : job_status) : bool :=
  match s with
  | pending | running => false
  | completed | failed | cancelled => true
  end.

(** Modelled from the spec: the status names a [list_jobs] filter is
    compared with ([jobs/manager.py] is missing). *)
Definition status_name (s : job_status) : string :=
  match s with
  | pending => "pending"
  | running => "running"
  | completed => "completed"
  | failed => "failed"
  | cancelled => "cancelled"
  end.

(** Modelled from the spec: the Job record of section 3 ([jobs/manager.py]
    is missing). The process handle is the dispatcher's own and is left
    out; timestamps are ticks of the manager's clock. *)
Record job : Type := {
  job_id : string;
  name : string;
  script_path : string;
  args : list (string * value);
  status : job_status;
  submitted_at : nat;
  started_at : option nat;
  finished_at : option nat;
  exit_code : option Z;
  result : option string;
  error : option string;
  log : list string
}.

(** Modelled from the spec: the registry of section 4.3, a table from job
    id to record, with the id counter, the clock and the optional
    concurrency cap of section 5 ([jobs/manager.py] is missing). *)
Record manager : Type := {
  registry : gmap string job;
  next_id : nat;
  clock : nat;
  max_concurrent : option nat
}.

(** Modelled from the spec: the error kinds of section 7 that reach the
    caller ([jobs/manager.py] is missing). *)
Inductive api_error : Type :=
| NotFoundError (job_id : string)
| DuplicateJobError (job_id : string).

(** Modelled from the spec: the structured records the six operations of
    section 4.5 answer with ([jobs/manager.py] is missing). *)
Inductive reply : Type :=
| Submitted (job_id : string)
| StatusOf (s : job_status) (submitted_at : nat) (started_at finished_at : option nat)
           (error : option string)
| ResultOf (result : option string)
| FailedWith (error : option string)
| NotReady (s : job_status)
| LogLines (lines : list string) (total_lines : nat)
| Acknowledged (s : job_status)
| JobList (jobs : list (string * string * job_status))
| Error (e : api_error).

(** Modelled from the spec: an empty registry at initialization (section 9;
    [jobs/manager.py] is missing). *)
Definition new_manager (cap : option nat) : manager :=
  {| registry := ∅; next_id := 0; clock := 0; max_concurrent := cap |}.

(** Modelled from the spec: a change of the registry, one tick of the
    clock ([jobs/manager.py] is missing). *)
Definition set_registry (m : manager) (reg : gmap string job) : manager :=
  {| registry := reg; next_id := next_id m; clock := S (clock m);
     max_concurrent := max_concurrent m |}.

(** Modelled from the spec: [update(id, mutator)] of section 4.3, a
    transition applied to one record ([jobs/manager.py] is missing). *)
Definition update (id : string) (j : job) (m : manager) : manager :=
  set_registry m (<[id := j]> (registry m)).

(** Modelled from the spec: the record on reaching a terminal status:
    [finished_at], exit code, result or error are set, the log is frozen
    (section 3; [jobs/manager.py] is missing). *)
Definition finish (j : job) (s : job_status) (code : option Z)
                  (res err : option string) (now : nat) : job :=
  {| job_id := job_id j; name := name j; script_path := script_path j;
     args := args j; status := s; submitted_at := submitted_at j;
     started_at := started_at j; finished_at := Some now; exit_code := code;
     result := res; error := err; log := log j |}.

(** Modelled from the spec: [pending -> running] sets [started_at]
    (section 4.4; [jobs/manager.py] is missing). *)
Definition start (j : job) (now : nat) : job :=
  {| job_id := job_id j; name := name j; script_path := script_path j;
     args := args j; status := running; submitted_at := submitted_at j;
     started_at := Some now; finished_at := finished_at j;
     exit_code := exit_code j; result := result j; error := error j;
     log := log j |}.

(** Modelled from the spec: the log is only ever appended to (section 3;
    [jobs/manager.py] is missing). *)
Definition append_log (j : job) (line : string) : job :=
  {| job_id := job_id j; name := name j; script_path := script_path j;
     args := args j; status := status j; submitted_at := submitted_at j;
     started_at := started_at j; finished_at := finished_at j;
     exit_code := exit_code j; result := result j; error := error j;
     log := log j ++ [line] |}.

(** Modelled from the spec: [submit_job] of section 4.5 with [create] of
    section 4.3: a new record in [pending] under a fresh id, and
    [DuplicateJobError] if the id is taken ([jobs/manager.py] is missing). *)
Definition submit_job (script : string) (arguments : list (string * value))
                      (job_name : string) (m : manager) : manager * Os.result reply :=
  let id := "job-" +:+ str_of_int (Z.of_nat (next_id m)) in
  match registry m !! id with
  | Some _ => (m, Ok (Error (DuplicateJobError id)))
  | None =>
      let j := {| job_id := id; name := job_name; script_path := script;
                  args := arguments; status := pending; submitted_at := clock m;
                  started_at := None; finished_at := None; exit_code := None;
                  result := None; error := None; log := [] |} in
      ({| registry := <[id := j]> (registry m); next_id := S (next_id m);
          clock := S (clock m); max_concurrent := max_concurrent m |},
       Ok (Submitted id))
  end.

(** Modelled from the spec: [get_job_status] of section 4.5, [NotFoundError]
    as a value for an unknown id ([jobs/manager.py] is missing). *)
Definition get_job_status (id : string) (m : manager) : Os.result reply :=
  match registry m !! id with
  | None => Ok (Error (NotFoundError id))
  | Some j =>
      Ok (StatusOf (status j) (submitted_at j) (started_at j) (finished_at j) (error j))
  end.

(** Modelled from the spec: [get_job_result] of section 4.5: the result
    when completed, the error payload when failed, "not ready" otherwise
    ([jobs/manager.py] is missing). *)
Definition get_job_result (id : string) (m : manager) : Os.result reply :=
  match registry m !! id with
  | None => Ok (Error (NotFoundError id))
  | Some j =>
      match status j with
      | completed => Ok (ResultOf (result j))
      | failed => Ok (FailedWith (error j))
      | s => Ok (NotReady s)
      end
  end.

(** Modelled from the spec: the tail of section 4.2: the last [n] lines for
    [n > 0], the entire log for [n = 0] ([jobs/manager.py] is missing). The
    spec says nothing of a negative [n]; it is answered like 0 here. *)
Definition tail_lines (n : Z) (lines : list string) : list string :=
  if 0 <? n then drop (length lines - Z.to_nat n) lines else lines.

(** Modelled from the spec: [get_job_log] of section 4.5 ([jobs/manager.py]
    is missing); the answer carries the lines and the total line count the
    server's docstring promises. *)
Definition get_job_log (id : string) (tail : Z) (m : manager) : Os.result reply :=
  match registry m !! id with
  | None => Ok (Error (NotFoundError id))
  | Some j => Ok (LogLines (tail_lines tail (log j)) (length (log j)))
  end.

(** Modelled from the spec: [cancel_job] of section 4.4: a pending job is
    never started, a running one is terminated and recorded as cancelled, a
    terminal one is left alone and its status reported ([jobs/manager.py]
    is missing). *)
Definition cancel_job (id : string) (m : manager) : manager * Os.result reply :=
  match registry m !! id with
  | None => (m, Ok (Error (NotFoundError id)))
  | Some j =>
      if is_terminal (status j) then (m, Ok (Acknowledged (status j)))
      else (update id (finish j cancelled (exit_code j) None None (clock m)) m,
            Ok (Acknowledged cancelled))
  end.

(** Modelled from the spec: [list_jobs] of section 4.5 ([jobs/manager.py] is
    missing): the records whose status matches the filter, all without one. *)
Definition list_jobs (filter_status : option string) (m : manager) : Os.result reply :=
  let keep (j : job) :=
    match filter_status with
    | None => true
    | Some s => String.eqb (status_name (status j)) s
    end in
  Ok (JobList (map (fun kv => (fst kv, name (snd kv), status (snd kv)))
                   (List.filter (fun kv => keep (snd kv)) (map_to_list (registry m))))).

(** Modelled from the spec: what happens to a job outside the API
    (sections 4.2 and 4.4; [jobs/manager.py] is missing): a worker picks it up
    and the launch succeeds or fails, the process writes a line, the process
    exits. *)
Inductive event : Type :=
| Dispatch (id : string) (launch_error : option string)
| Output (id : string) (line : string)
| Exit (id : string) (code : Z) (output : string).

(** Modelled from the spec: the jobs now running, for the optional
    concurrency cap of section 5 ([jobs/manager.py] is missing). *)
Definition running_jobs (m : manager) : nat :=
  length (List.filter (fun kv => bool_decide (status (snd kv) = running))
                      (map_to_list (registry m))).

(** Modelled from the spec: a worker is available when there is no cap or
    fewer running jobs than the cap (sections 4.4 and 5; [jobs/manager.py]
    is missing). *)
Definition slot_free (m : manager) : bool :=
  match max_concurrent m with
  | None => true
  | Some cap => (running_jobs m <? cap)%nat
  end.

(** Modelled from the spec: the dispatcher's transitions of section 4.4
    and the log growth of sections 3 and 4.2 ([jobs/manager.py] is missing). *)
Definition handle (ev : event) (m : manager) : manager :=
  match ev with
  | Dispatch id launch_error =>
      match registry m !! id with
      | Some j =>
          if bool_decide (status j = pending) && slot_free m then
            match launch_error with
            | None => update id (start j (clock m)) m
            | Some msg => update id (finish j failed None None (Some msg) (clock m)) m
            end
          else m
      | None => m
      end
  | Output id line =>
      match registry m !! id with
      | Some j => if is_terminal (status j) then m else update id (append_log j line) m
      | None => m
      end
  | Exit id code output =>
      match registry m !! id with
      | Some j =>
          if bool_decide (status j = running) then
            if code =? 0
            then update id (finish j completed (Some code) (Some output) None (clock m)) m
            else update id (finish j failed (Some code) None (Some output) (clock m)) m
          else m
      | None => m
      end
  end.

(** Modelled from the spec: everything that can happen to the manager, a
    call of the API that changes it or an event of a job
    ([jobs/manager.py] is missing). *)
Inductive action : Type :=
| Submit (script : string) (arguments : list (string * value)) (job_name : string)
| Cancel (id : string)
| Event (ev : event).

(** Modelled from the spec: one action carried out
    ([jobs/manager.py] is missing). *)
Definition apply (m : manager) (a : action) : manager :=
  match a with
  | Submit script arguments job_name => fst (submit_job script arguments job_name m)
  | Cancel id => fst (cancel_job id m)
  | Event ev => handle ev m
  end.

(** Modelled from the spec: a series of actions carried out one after the
    other ([jobs/manager.py] is missing). *)
Definition run (acts : list action) (m : manager) : manager :=
  fold_left apply acts m.

(** Modelled from the spec: the arrows of the state machine of section 4.4
    ([jobs/manager.py] is missing). *)
Inductive transition : job_status -> job_status -> Prop :=
| pending_running : transition pending running
| pending_failed : transition pending failed
| pending_cancelled : transition pending cancelled
| running_completed : transition running completed
| running_failed : transition running failed
| running_cancelled : transition running cancelled.

(** Modelled from the spec: the position of a status in
    [pending -> running -> terminal] (section 8; [jobs/manager.py] is
    missing). *)
Definition rank (s : job_status) : nat :=
  match s with
  | pending => 0
  | running => 1
  | completed | failed | cancelled => 2
  end.

(** Modelled from the spec: the status a poller sees for a job after each
    of a series of actions (section 5; [jobs/manager.py] is missing). *)
Fixpoint history (id : string) (acts : list action) (m : manager) : list (option job_status) :=
  match acts with
  | [] => []
  | a :: rest =>
      let m' := apply m a in
      (status <$> registry m' !! id) :: history id rest m'
  end.

(** *** The state machine *)

Lemma transition_facts (a b : job_status) :
  rtc transition a b ->
  (rank a <= rank b)%nat /\ (a <> pending -> b <> pending) /\
  (is_terminal a = true -> b = a).
Proof.
  induction 1 as [a|a b c Hab _ (IH1 & IH2 & IH3)].
  - repeat split; auto.
  - destruct Hab; simpl in *; repeat split; try lia; try done;
      intros _; apply IH2; done.
Qed.

Lemma terminal_is_final (a b : job_status) :
  is_terminal a = true -> ~ transition a b.
Proof. intros Ha Hab. destruct Hab; discriminate Ha. Qed.

Lemma not_terminal_cancel (s : job_status) :
  is_terminal s = false -> transition s cancelled.
Proof. destruct s; intros Hs; try discriminate Hs; constructor. Qed.

(** A transition applied to one record keeps every job in the registry and
    moves at most that one along an arrow. *)
Lemma update_step (m : manager) (id0 : string) (j0 new : job) (id : string) (j : job) :
  registry m !! id0 = Some j0 ->
  status new = status j0 \/ transition (status j0) (status new) ->
  registry m !! id = Some j ->
  exists j', registry (update id0 new m) !! id = Some j' /\
             (status j' = status j \/ transition (status j) (status j')).
Proof.
  intros H0 Hstep Hj. unfold update. simpl.
  destruct (decide (id0 = id)) as [->|Hne].
  - rewrite lookup_insert_eq. exists new. split; [done|]. by simplify_eq.
  - rewrite lookup_insert_ne by done. exists j. auto.
Qed.

Lemma apply_step (m : manager) (a : action) (id : string) (j : job) :
  registry m !! id = Some j ->
  exists j', registry (apply m a) !! id = Some j' /\
             (status j' = status j \/ transition (status j) (status j')).
Proof.
  intros Hj.
  assert (exists j', registry m !! id = Some j' /\
            (status j' = status j \/ transition (status j) (status j'))) as Hsame
    by (exists j; auto).
  destruct a as [script arguments job_name|id0|[id0 launch|id0 line|id0 code output]];
    simpl.
  - unfold submit_job.
    destruct (registry m !! (_ +:+ _)) as [j0|] eqn:E; simpl; [done|].
    rewrite lookup_insert_ne by congruence. exists j. auto.
  - unfold cancel_job. destruct (registry m !! id0) as [j0|] eqn:E; simpl; [|done].
    destruct (is_terminal (status j0)) eqn:Ht; simpl; [done|].
    apply (update_step m id0 j0); [done| |done].
    right. by apply not_terminal_cancel.
  - destruct (registry m !! id0) as [j0|] eqn:E; [|done].
    case_bool_decide as Hp; simpl; [|done].
    destruct (slot_free m); [|done].
    destruct launch as [msg|]; (apply (update_step m id0 j0); [done| |done]);
      right; simpl; rewrite Hp; constructor.
  - destruct (registry m !! id0) as [j0|] eqn:E; [|done].
    destruct (is_terminal (status j0)); [done|].
    apply (update_step m id0 j0); [done| |done]. by left.
  - destruct (registry m !! id0) as [j0|] eqn:E; [|done].
    case_bool_decide as Hr; [|done].
    destruct (code =? 0); (apply (update_step m id0 j0); [done| |done]);
      right; simpl; rewrite Hr; constructor.
Qed.

Lemma apply_new (m : manager) (a : action) (id : string) (j : job) :
  registry m !! id = None -> registry (apply m a) !! id = Some j ->
  status j = pending.
Proof.
  intros Hnone.
  destruct a as [script arguments job_name|id0|[id0 launch|id0 line|id0 code output]];
    simpl.
  - unfold submit_job.
    destruct (registry m !! (_ +:+ _)) as [j0|] eqn:E; simpl; [congruence|].
    intros Hj. apply lookup_insert_Some in Hj as [[_ <-]|[_ Hj]]; [done|congruence].
  - unfold cancel_job. destruct (registry m !! id0) as [j0|] eqn:E; simpl; [|congruence].
    destruct (is_terminal (status j0)); simpl; [congruence|].
    intros Hj. apply lookup_insert_Some in Hj as [[-> _]|[_ Hj]]; congruence.
  - destruct (registry m !! id0) as [j0|] eqn:E; [|congruence].
    destruct (bool_decide _ && _); [|congruence].
    destruct launch; simpl; intros Hj;
      apply lookup_insert_Some in Hj as [[-> _]|[_ Hj]]; congruence.
  - destruct (registry m !! id0) as [j0|] eqn:E; [|congruence].
    destruct (is_terminal (status j0)); [congruence|]. simpl. intros Hj.
    apply lookup_insert_Some in Hj as [[-> _]|[_ Hj]]; congruence.
  - destruct (registry m !! id0) as [j0|] eqn:E; [|congruence].
    destruct (bool_decide _); [|congruence].
    destruct (code =? 0); simpl; intros Hj;
      apply lookup_insert_Some in Hj as [[-> _]|[_ Hj]]; congruence.
Qed.

(** C4: a job enters the registry in [pending]; from then on the statuses
    seen after each action (API call or job event) form a walk along the
    arrows pending -> running -> completed | failed | cancelled (pending may
    go straight to failed or cancelled): every later status is reached from
    every earlier one along those arrows. Along them the position in
    pending/running/terminal never decreases, a job that has left [pending]
    is never [pending] again, a job in a terminal status keeps exactly that
    status (so it is never [running] again), and no arrow leaves a terminal
    status. *)
Theorem status_walk (acts : list action) (m : manager) (a : action) (id : string) :
  (forall j, registry m !! id = None -> registry (apply m a) !! id = Some j ->
             status j = pending) /\
  (forall j, registry m !! id = Some j ->
     exists path,
       history id acts m = map Some path /\
       StronglySorted (rtc transition) (status j :: path)) /\
  (forall s s', rtc transition s s' ->
     (rank s <= rank s')%nat /\ (s <> pending -> s' <> pending) /\
     (is_terminal s = true -> s' = s)) /\
  (forall s s', is_terminal s = true -> ~ transition s s').
Proof.
  split; [|split; [|split]].
  - intros j. apply apply_new.
  - clear a. revert m. induction acts as [|a acts IH]; intros m j Hj.
    + exists []. split; [done|]. repeat constructor.
    + destruct (apply_step m a id j Hj) as (j1 & Hj1 & Hstep).
      destruct (IH (apply m a) j1 Hj1) as (path & Hhist & Hsorted).
      exists (status j1 :: path). split.
      * simpl. by rewrite Hj1, Hhist.
      * assert (rtc transition (status j) (status j1)) as Hreach.
        { destruct Hstep as [->|Hstep]; [done|]. by apply rtc_once. }
        constructor; [done|].
        apply StronglySorted_inv in Hsorted as [_ Hall].
        constructor; [done|].
        eapply Forall_impl; [exact Hall|]. intros s Hs. by etrans.
  - apply transition_facts.
  - apply terminal_is_final.
Qed.

Lemma status_walk_witness :
  let m := fst (submit_job "scripts/monomer_prediction.py" [] "monomer_p" (new_manager None)) in
  let acts := [ Event (Dispatch "job-0" None); Event (Output "job-0" "loading");
                Cancel "job-0"; Event (Exit "job-0" 0 "done");
                Event (Dispatch "job-0" None) ] in
  history "job-0" acts m = map Some [running; running; cancelled; cancelled; cancelled] /\
  StronglySorted (rtc transition)
                 [pending; running; running; cancelled; cancelled; cancelled].
Proof.
  intros m acts.
  assert (history "job-0" acts m =
          map Some [running; running; cancelled; cancelled; cancelled]) as Hh
    by (vm_compute; reflexivity).
  split; [exact Hh|].
  destruct (status_walk acts m (Cancel "job-0") "job-0") as (_ & Hwalk & _).
  destruct (m.(registry) !! "job-0") as [j|] eqn:Hj; [|by vm_compute in Hj].
  destruct (Hwalk j eq_refl) as (path & Hpath & Hsorted).
  assert (status j = pending) as Hs.
  { assert (status <$> registry m !! "job-0" = Some pending) as E
      by (vm_compute; reflexivity).
    rewrite Hj in E. by injection E. }
  rewrite Hh in Hpath. apply (inj (fmap Some)) in Hpath. subst path.
  by rewrite Hs in Hsorted.
Defined.

End Manager.

(** ** The server over the job manager *)

Module Service.
Import Py Os Manager.

#[global] Instance manager_jobs : Server.JobManager manager reply := {|
  Server.jm_submit_job := submit_job;
  Server.jm_get_job_status := get_job_status;
  Server.jm_get_job_result := get_job_result;
  Server.jm_get_job_log := get_job_log;
  Server.jm_cancel_job := cancel_job;
  Server.jm_list_jobs := list_jobs
|}.

Definition demo : manager :=
  run [ Submit "scripts/monomer_prediction.py" [] "monomer_p";
        Submit "scripts/batch_prediction.py" [] "batch_b";
        Event (Dispatch "job-0" None);
        Event (Output "job-0" "line 1"); Event (Output "job-0" "line 2");
        Event (Output "job-0" "line 3");
        Event (Exit "job-0" 0 "ranked_0.pdb") ]
      (new_manager None).

Example demo_log_tail :
  Server.get_job_log demo "job-0" 2 = Ok (LogLines ["line 2"; "line 3"] 3).
Proof. vm_compute. reflexivity. Qed.

Example demo_log_all :
  Server.get_job_log demo "job-0" 0 = Ok (LogLines ["line 1"; "line 2"; "line 3"] 3).
Proof. vm_compute. reflexivity. Qed.

Example demo_log_empty :
  Server.get_job_log demo "job-1" 50 = Ok (LogLines [] 0).
Proof. vm_compute. reflexivity. Qed.

Example demo_cancel_completed :
  snd (Server.cancel_job demo "job-0") = Ok (Acknowledged completed).
Proof. vm_compute. reflexivity. Qed.

Example demo_cancel_pending :
  snd (Server.cancel_job demo "job-1") = Ok (Acknowledged cancelled).
Proof. vm_compute. reflexivity. Qed.

Example demo_result :
  Server.get_job_result demo "job-0" = Ok (ResultOf (Some "ranked_0.pdb")).
Proof. vm_compute. reflexivity. Qed.

Example demo_result_not_ready :
  Server.get_job_result demo "job-1" = Ok (NotReady pending).
Proof. vm_compute. reflexivity. Qed.

(** *** Log tail *)

Lemma tail_lines_suffix (n : Z) (lines : list string) :
  exists before, lines = before ++ tail_lines n lines.
Proof.
  unfold tail_lines. destruct (0 <? n).
  - exists (take (length lines - Z.to_nat n) lines). by rewrite take_drop.
  - by exists [].
Qed.

Lemma tail_lines_length (n : Z) (lines : list string) :
  0 < n -> length (tail_lines n lines) = Nat.min (Z.to_nat n) (length lines).
Proof.
  intros Hn. unfold tail_lines. apply Z.ltb_lt in Hn as ->.
  rewrite length_drop. lia.
Qed.

(** C3: for a job in the registry [get_job_log] answers with lines of the
    job's log and the log's length; for [N > 0] the lines are the last [N] of
    the log (a suffix of it, [N] lines long, or the whole log when it has at
    most [N] lines), for [N = 0] they are the entire log, and for a job that
    has produced no output they are the empty sequence. *)
Theorem get_job_log_tail (m : manager) (id : string) (j : job) (n : Z) :
  registry m !! id = Some j ->
  exists lines,
    Server.get_job_log m id n = Ok (LogLines lines (length (log j))) /\
    (0 < n ->
       lines = drop (length (log j) - Z.to_nat n) (log j) /\
       (exists before, log j = before ++ lines) /\
       length lines = Nat.min (Z.to_nat n) (length (log j)) /\
       ((length (log j) <= Z.to_nat n)%nat -> lines = log j)) /\
    (n = 0 -> lines = log j) /\
    (log j = [] -> lines = []).
Proof.
  intros Hj. exists (tail_lines n (log j)). split.
  - unfold Server.get_job_log. simpl. unfold get_job_log. by rewrite Hj.
  - split; [|split].
    + intros Hn. split; [|split; [|split]].
      * unfold tail_lines. by apply Z.ltb_lt in Hn as ->.
      * apply tail_lines_suffix.
      * by apply tail_lines_length.
      * intros Hlen. unfold tail_lines. apply Z.ltb_lt in Hn as ->.
        replace (length (log j) - Z.to_nat n)%nat with 0%nat by lia. done.
    + by intros ->.
    + intros ->. unfold tail_lines. by destruct (0 <? n).
Qed.

Lemma get_job_log_tail_witness :
  Server.get_job_log demo "job-0" 2 = Ok (LogLines ["line 2"; "line 3"] 3).
Proof.
  destruct (registry demo !! "job-0") as [j|] eqn:Hj; [|by vm_compute in Hj].
  destruct (get_job_log_tail demo "job-0" j 2 Hj) as (lines & Hget & Hpos & _ & _).
  destruct (Hpos ltac:(lia)) as (Hlines & _).
  assert (log <$> registry demo !! "job-0" = Some ["line 1"; "line 2"; "line 3"]) as E
    by (vm_compute; reflexivity).
  rewrite Hj in E. injection E as E. rewrite E in Hget, Hlines.
  rewrite Hget, Hlines. reflexivity.
Defined.

(** *** Cancellation *)

(** C5: on a job already in a terminal status [cancel_job] changes nothing
    and answers with that status, the second call like the first; and for
    any job of the registry two calls in a row answer with one and the same
    terminal status, the second one changing nothing. *)
Theorem cancel_job_idempotent (m : manager) (id : string) (j : job) :
  registry m !! id = Some j ->
  let first := Server.cancel_job m id in
  let second := Server.cancel_job (fst first) id in
  (is_terminal (status j) = true ->
     first = (m, Ok (Acknowledged (status j))) /\
     second = (m, Ok (Acknowledged (status j)))) /\
  (exists s, is_terminal s = true /\
     snd first = Ok (Acknowledged s) /\ snd second = Ok (Acknowledged s) /\
     fst second = fst first).
Proof.
  intros Hj first second. subst first second.
  unfold Server.cancel_job. simpl Server.jm_cancel_job.
  destruct (is_terminal (status j)) eqn:Ht.
  - assert (cancel_job id m = (m, Ok (Acknowledged (status j)))) as E
      by (unfold cancel_job; by rewrite Hj, Ht).
    rewrite E. simpl. rewrite E. split; [done|]. by exists (status j).
  - set (m1 := update id (finish j cancelled (exit_code j) None None (clock m)) m).
    assert (cancel_job id m = (m1, Ok (Acknowledged cancelled))) as E1
      by (unfold cancel_job; by rewrite Hj, Ht).
    assert (cancel_job id m1 = (m1, Ok (Acknowledged cancelled))) as E2.
    { unfold cancel_job, m1, update. simpl. by rewrite lookup_insert_eq. }
    rewrite E1. simpl. rewrite E2. split; [done|]. by exists cancelled.
Qed.

Lemma cancel_job_idempotent_witness :
  Server.cancel_job demo "job-0" = (demo, Ok (Acknowledged completed)) /\
  snd (Server.cancel_job (fst (Server.cancel_job demo "job-1")) "job-1") =
    Ok (Acknowledged cancelled).
Proof.
  split.
  - destruct (registry demo !! "job-0") as [j|] eqn:Hj; [|by vm_compute in Hj].
    assert (status j = completed) as Hs.
    { assert (status <$> registry demo !! "job-0" = Some completed) as E
        by (vm_compute; reflexivity).
      rewrite Hj in E. by injection E. }
    destruct (cancel_job_idempotent demo "job-0" j Hj) as [Hterm _].
    rewrite Hs in Hterm. by destruct (Hterm eq_refl) as [-> _].
  - destruct (registry demo !! "job-1") as [j|] eqn:Hj; [|by vm_compute in Hj].
    destruct (cancel_job_idempotent demo "job-1" j Hj) as [_ (s & _ & H1 & H2 & _)].
    rewrite H2, <- H1. vm_compute. reflexivity.
Defined.

(** *** Unknown job ids *)

(** C6: for a job id that is not in the registry, each of [get_job_status],
    [get_job_result], [get_job_log] and [cancel_job] returns (it does not
    raise) and what it returns is the structured [NotFoundError] for that
    id; [cancel_job] leaves the manager as it was. *)
Theorem unknown_job_not_found (m : manager) (id : string) (tail : Z) :
  registry m !! id = None ->
  Server.get_job_status m id = Ok (Error (NotFoundError id)) /\
  Server.get_job_result m id = Ok (Error (NotFoundError id)) /\
  Server.get_job_log m id tail = Ok (Error (NotFoundError id)) /\
  Server.cancel_job m id = (m, Ok (Error (NotFoundError id))).
Proof.
  intros Hid.
  unfold Server.get_job_status, Server.get_job_result, Server.get_job_log,
    Server.cancel_job. simpl.
  unfold get_job_status, get_job_result, get_job_log, cancel_job.
  by rewrite Hid.
Qed.

Lemma unknown_job_not_found_witness :
  Server.get_job_status demo "job-7" = Ok (Error (NotFoundError "job-7")) /\
  Server.get_job_result demo "job-7" = Ok (Error (NotFoundError "job-7")) /\
  Server.get_job_log demo "job-7" 50 = Ok (Error (NotFoundError "job-7")) /\
  Server.cancel_job demo "job-7" = (demo, Ok (Error (NotFoundError "job-7"))).
Proof.
  apply (unknown_job_not_found demo "job-7" 50). vm_compute. reflexivity.
Defined.

End Service.

(** ** scripts/lib/io.py: further properties of the FASTA functions *)

Module Fasta.
Import Py Os Io.

(** The header [load_fasta] reads back for a header given to [save_fasta]:
    a leading ['>'] is written only once, and taken off on reading. *)
Definition read_back (header : string) : string :=
  if startswith ">" header then drop_first header else header.

(** [sequences[read_back header] = sequence], for one written entry. *)
Definition insert_entry (d : dict) (entry : string * string) : dict :=
  dict_set (read_back (fst entry)) (snd entry) d.

(** A written entry that survives the trip: what remains of the header
    after its first ['>'] is non-empty and has no trailing whitespace, the
    header holds no line break, the sequence no whitespace and no ['>']. *)
Definition entry_fine (entry : string * string) : Prop :=
  read_back (fst entry) <> EmptyString /\
  rstrip (read_back (fst entry)) = read_back (fst entry) /\
  string_forall (is_not LF) (fst entry) = true /\
  string_forall (is_not CR) (fst entry) = true /\
  sequence_ok (snd entry).

(** A line that is empty once stripped. *)
Definition is_blank (raw : string) : bool :=
  negb (truthy (strip raw)).

(** A line that opens an entry. *)
Definition is_header_line (raw : string) : bool :=
  startswith ">" (strip raw).

Definition start_state : loader :=
  {| sequences := []; current_header := None; current_sequence := [] |}.

Lemma startswith_gt_inv (h : string) :
  startswith ">" h = true -> h = String ">" (drop_first h).
Proof.
  destruct h as [|c h]; [done|]. rewrite startswith_char.
  intros Hc. apply Ascii.eqb_eq in Hc. by subst c.
Qed.

Lemma entry_lines_read_back (h sq : string) :
  entry_lines (h, sq) = (">" +:+ read_back h) :: chunks sq.
Proof.
  unfold entry_lines, read_back. destruct (startswith ">" h) eqn:E; [|done].
  by rewrite (startswith_gt_inv h E) at 1.
Qed.

Lemma string_forall_drop_first (p : ascii -> bool) (h : string) :
  string_forall p h = true -> string_forall p (drop_first h) = true.
Proof.
  destruct h as [|c h]; [done|]. simpl. intros H. by apply andb_prop in H as [_ H].
Qed.

Lemma sequence_ok_clean (c : string) :
  string_forall (fun x => negb (is_space x) && is_not ">" x) c = true ->
  string_forall (is_not LF) c = true /\ string_forall (is_not CR) c = true.
Proof.
  induction c as [|x c IH]; [done|]. simpl. intros H.
  apply andb_prop in H as [Hx Hc]. apply andb_prop in Hx as [Hx _].
  destruct (IH Hc) as [-> ->]. rewrite !andb_true_r. unfold is_not. split.
  - by destruct (Ascii.eqb_spec x LF) as [->|].
  - by destruct (Ascii.eqb_spec x CR) as [->|].
Qed.

Lemma entry_lines_fine (es : list (string * string)) :
  Forall entry_fine es ->
  Forall (fun l => string_forall (is_not LF) l = true /\
                   string_forall (is_not CR) l = true) (flat_map entry_lines es).
Proof.
  intros Hok. induction Hok as [|[h sq] es (_ & _ & Hlf & Hcr & Hsq) _ IH]; [constructor|].
  simpl in Hlf, Hcr, Hsq.
  change (flat_map entry_lines ((h, sq) :: es))
    with (entry_lines (h, sq) ++ flat_map entry_lines es).
  apply Forall_app. split; [|exact IH].
  unfold entry_lines. constructor.
  - destruct (startswith ">" h); [done|].
    change (">" +:+ h) with (String ">" h). simpl. by rewrite Hlf, Hcr.
  - apply Forall_forall. intros c Hc.
    pose proof (chunks_forall _ sq Hsq) as Hall.
    rewrite Forall_forall in Hall. destruct (Hall c Hc) as [_ Hp].
    by apply sequence_ok_clean.
Qed.

(** Reading the lines of written entries is inserting the entries one by
    one, whatever was read before. *)
Lemma load_written (es : list (string * string)) (st : loader) :
  Forall entry_fine es ->
  flush (fold_left load_line (map with_newline (flat_map entry_lines es)) st) =
  fold_left insert_entry es (flush st).
Proof.
  revert st. induction es as [|[h sq] es IH]; intros st Hok; [done|].
  apply Forall_cons in Hok as [(Hne & Hr & _ & _ & Hsq) Hok].
  simpl in Hne, Hr, Hsq.
  change (flat_map entry_lines ((h, sq) :: es))
    with (entry_lines (h, sq) ++ flat_map entry_lines es).
  rewrite entry_lines_read_back.
  rewrite <- app_comm_cons, map_cons, map_app. simpl fold_left.
  rewrite fold_left_app, load_header_line by done.
  rewrite (load_chunk_lines (chunks sq)) by (by apply chunks_forall).
  simpl current_sequence. simpl sequences. simpl current_header.
  rewrite IH by done. f_equal.
  unfold flush at 1. simpl. unfold insert_entry. simpl.
  destruct (read_back h) as [|c r]; [done|]. simpl truthy. cbv iota.
  by rewrite join_chunks.
Qed.

Lemma load_save_inserts (seqs : dict) :
  Forall entry_fine seqs ->
  load_fasta_text (save_fasta seqs) = fold_left insert_entry seqs [].
Proof.
  intros Hok. unfold load_fasta_text.
  rewrite save_fasta_unlines, read_lines_unlines by (by apply entry_lines_fine).
  by rewrite load_written.
Qed.

Lemma fold_insert_fresh (es : list (string * string)) (d : dict) :
  NoDup (map fst d ++ map (fun e => read_back (fst e)) es) ->
  fold_left insert_entry es d = d ++ map (fun e => (read_back (fst e), snd e)) es.
Proof.
  revert d. induction es as [|[h sq] es IH]; intros d Hnd; simpl.
  - by rewrite app_nil_r.
  - unfold insert_entry at 2. simpl. simpl in Hnd.
    rewrite dict_set_fresh.
    + rewrite IH; [by rewrite <- app_assoc|].
      rewrite map_app, <- app_assoc. exact Hnd.
    + apply NoDup_app in Hnd as (_ & Hd & _).
      intros Hin. apply list_elem_of_In in Hin. apply (Hd _ Hin). left.
Qed.

(** *** What [load_fasta] keeps and what it ignores *)

Lemma rstrip_idem (s : string) : rstrip (rstrip s) = rstrip s.
Proof.
  induction s as [|c s IH]; [done|]. simpl.
  destruct (rstrip s) as [|k ks] eqn:E.
  - destruct (is_space c) eqn:Hc; [done|]. simpl. by rewrite Hc.
  - simpl. simpl in IH. by rewrite IH.
Qed.

Lemma rstrip_tail (c : ascii) (h : string) :
  rstrip (String c h) = String c h -> rstrip h = h.
Proof.
  simpl. destruct (rstrip h) as [|k ks] eqn:E.
  - destruct (is_space c); [done|]. by intros [= <-].
  - by intros [= <-].
Qed.

Lemma header_of_line_clean (raw : string) :
  rstrip (drop_first (strip raw)) = drop_first (strip raw).
Proof.
  pose proof (rstrip_idem (lstrip raw)) as H. fold (strip raw) in H.
  destruct (strip raw) as [|c h]; [done|]. simpl drop_first. by apply rstrip_tail in H.
Qed.

Lemma dict_set_keys (key v : string) (d : dict) :
  map fst (dict_set key v d) =
  if bool_decide (key ∈ map fst d) then map fst d else map fst d ++ [key].
Proof.
  induction d as [|[k w] d IH]; [done|]. simpl.
  destruct (String.eqb_spec k key) as [->|Hne]; simpl.
  - rewrite bool_decide_eq_true_2; [done|]. apply list_elem_of_here.
  - rewrite IH. case_bool_decide as E.
    + rewrite bool_decide_eq_true_2; [done|]. by apply list_elem_of_further.
    + rewrite bool_decide_eq_false_2; [done|].
      intros Hin. apply elem_of_cons in Hin as [?|?]; congruence.
Qed.

(** On the keys of a dictionary: distinct, non-empty, no trailing
    whitespace. *)
Definition keys_ok (d : dict) : Prop :=
  NoDup (map fst d) /\
  Forall (fun h => h <> EmptyString /\ rstrip h = h) (map fst d).

Lemma dict_set_keys_ok (key v : string) (d : dict) :
  key <> EmptyString -> rstrip key = key -> keys_ok d -> keys_ok (dict_set key v d).
Proof.
  intros Hne Hr [Hnd Hall]. unfold keys_ok. rewrite dict_set_keys.
  case_bool_decide as Hin; [done|]. split.
  - apply NoDup_app. split; [done|]. split; [|apply NoDup_singleton].
    intros x Hx Hx'. apply list_elem_of_singleton in Hx' as ->. done.
  - apply Forall_app. split; [done|]. by constructor.
Qed.

Lemma flush_keys_ok (st : loader) :
  keys_ok (sequences st) ->
  (forall h, current_header st = Some h -> rstrip h = h) ->
  keys_ok (flush st).
Proof.
  intros Hd Hh. unfold flush. destruct (current_header st) as [h|]; [|done].
  destruct h as [|c h]; [done|]. simpl truthy. cbv iota.
  apply dict_set_keys_ok; [done|by apply Hh|done].
Qed.

Lemma load_lines_keys_ok (lines : list string) (st : loader) :
  keys_ok (sequences st) ->
  (forall h, current_header st = Some h -> rstrip h = h) ->
  keys_ok (flush (fold_left load_line lines st)).
Proof.
  revert st. induction lines as [|raw lines IH]; intros st Hd Hh; simpl.
  - by apply flush_keys_ok.
  - apply IH; unfold load_line.
    + destruct (startswith ">" (strip raw)); simpl; [by apply flush_keys_ok|].
      by destruct (truthy (strip raw)).
    + destruct (startswith ">" (strip raw)); simpl.
      * intros h [= <-]. apply header_of_line_clean.
      * by destruct (truthy (strip raw)).
Qed.

(** X1: Whatever the text, the mapping [load_fasta] returns has distinct
    headers, none of them empty and none with trailing whitespace. *)
Theorem load_fasta_headers (content : string) :
  NoDup (map fst (load_fasta_text content)) /\
  Forall (fun h => h <> EmptyString /\ rstrip h = h) (map fst (load_fasta_text content)).
Proof.
  apply load_lines_keys_ok; simpl; [|done].
  split; [apply NoDup_nil_2|constructor].
Qed.

Lemma load_line_blank (st : loader) (raw : string) :
  is_blank raw = true -> load_line st raw = st.
Proof.
  unfold is_blank, load_line. destruct (strip raw) as [|c r]; [|done]. done.
Qed.

(** X2: Lines that are empty or hold only whitespace change nothing: the text
    is read as if they had been deleted. *)
Theorem load_fasta_skips_blank_lines (content : string) :
  load_fasta_text content =
  flush (fold_left load_line
           (List.filter (fun raw => negb (is_blank raw)) (read_lines content))
           start_state).
Proof.
  unfold load_fasta_text. fold start_state. f_equal.
  generalize start_state.
  induction (read_lines content) as [|raw lines IH]; intros st; [done|].
  simpl. destruct (is_blank raw) eqn:E; simpl.
  - by rewrite load_line_blank.
  - apply IH.
Qed.

(** Two states that differ only in sequence lines collected under no
    header. *)
Definition same_entries (st1 st2 : loader) : Prop :=
  sequences st1 = sequences st2 /\
  current_header st1 = current_header st2 /\
  (current_header st1 <> None -> current_sequence st1 = current_sequence st2).

Lemma load_line_same_entries (st1 st2 : loader) (raw : string) :
  same_entries st1 st2 -> same_entries (load_line st1 raw) (load_line st2 raw).
Proof.
  intros (Hs & Hh & Hc). unfold load_line.
  destruct (startswith ">" (strip raw)).
  - repeat split; simpl. unfold flush. rewrite <- Hh, <- Hs.
    destruct (current_header st1) as [h|]; [|done]. by rewrite Hc.
  - destruct (truthy (strip raw)); [|done].
    repeat split; simpl; [done..|]. intros Hn. by rewrite Hc.
Qed.

Lemma load_lines_same_entries (lines : list string) (st1 st2 : loader) :
  same_entries st1 st2 ->
  flush (fold_left load_line lines st1) = flush (fold_left load_line lines st2).
Proof.
  revert st1 st2. induction lines as [|raw lines IH]; intros st1 st2 Hsame; simpl.
  - destruct Hsame as (Hs & Hh & Hc). unfold flush. rewrite <- Hh, <- Hs.
    destruct (current_header st1) as [h|]; [|done]. by rewrite Hc.
  - apply IH. by apply load_line_same_entries.
Qed.

(** X3: Sequence lines that come before the first header belong to no entry:
    the text is read as if it began at the first header line. *)
Theorem load_fasta_drops_preamble (content : string) (pre rest : list string) :
  read_lines content = pre ++ rest ->
  Forall (fun raw => is_header_line raw = false) pre ->
  load_fasta_text content = flush (fold_left load_line rest start_state).
Proof.
  intros Hlines Hpre. unfold load_fasta_text. fold start_state.
  rewrite Hlines, fold_left_app. apply load_lines_same_entries.
  assert (forall st, same_entries st start_state ->
            same_entries (fold_left load_line pre st) start_state) as Hkeep.
  { clear Hlines. induction Hpre as [|raw pre Hraw _ IH]; intros st Hst; [done|].
    simpl. apply IH. destruct Hst as (Hs & Hh & _).
    unfold load_line. unfold is_header_line in Hraw. rewrite Hraw.
    destruct (truthy (strip raw)); repeat split; simpl; try done;
      intros Hn; by rewrite Hh in Hn. }
  apply Hkeep. by repeat split.
Qed.

Lemma load_fasta_drops_preamble_witness :
  load_fasta_text ("GIVEQ" +:+ String LF "# note" +:+ String LF ">a" +:+ String LF "CC") =
  [("a", "CC")].
Proof.
  rewrite (load_fasta_drops_preamble _
             ["GIVEQ" +:+ String LF ""; "# note" +:+ String LF ""]
             [">a" +:+ String LF ""; "CC"]).
  - reflexivity.
  - reflexivity.
  - repeat constructor.
Defined.

(** *** Writing, then reading or analysing *)

(** X4: Reading back what [save_fasta] wrote inserts the written entries one by
    one under their headers without the leading ['>'] (a header that already
    starts with ['>'] is not given a second one); when those headers are
    distinct the result is the written mapping with that ['>'] removed. *)
Theorem load_save_read_back (path : string) (seqs : dict) :
  Forall entry_fine seqs ->
  load_fasta path (Text (save_fasta seqs)) = Ok (fold_left insert_entry seqs []) /\
  (NoDup (map (fun e => read_back (fst e)) seqs) ->
   load_fasta path (Text (save_fasta seqs)) =
   Ok (map (fun e => (read_back (fst e), snd e)) seqs)).
Proof.
  intros Hok. unfold load_fasta. rewrite load_save_inserts by done.
  split; [done|]. intros Hnd. by rewrite fold_insert_fresh.
Qed.

Lemma load_save_read_back_witness :
  load_fasta "s.fasta" (Text (save_fasta [(">a|first", "GG"); ("b", "T"); ("a|first", "CC")])) =
    Ok [("a|first", "CC"); ("b", "T")] /\
  load_fasta "s.fasta" (Text (save_fasta [(">a|first", "GG"); ("b", "T")])) =
    Ok [("a|first", "GG"); ("b", "T")].
Proof.
  split.
  - assert (Forall entry_fine [(">a|first", "GG"); ("b", "T"); ("a|first", "CC")]) as Hok
      by (repeat constructor; try discriminate; vm_compute; reflexivity).
    destruct (load_save_read_back "s.fasta" _ Hok) as [-> _]. reflexivity.
  - assert (Forall entry_fine [(">a|first", "GG"); ("b", "T")]) as Hok
      by (repeat constructor; try discriminate; vm_compute; reflexivity).
    destruct (load_save_read_back "s.fasta" _ Hok) as [_ ->]; [reflexivity|].
    repeat (constructor;
              [rewrite ?elem_of_cons, elem_of_nil; simpl; intuition discriminate|]).
    constructor.
Defined.

(** X5: Analysing a file [save_fasta] wrote counts the written entries and
    their residues: the 80-character wrapping adds nothing to the lengths. *)
Theorem analyze_saved (path : string) (seqs : dict) :
  Forall entry_fine seqs ->
  NoDup (map (fun e => read_back (fst e)) seqs) ->
  exists a,
    analyze_fasta_content path (Text (save_fasta seqs)) = Ok a /\
    num_sequences a = length seqs /\
    map snd (sequence_info a) = map (fun e => String.length (snd e)) seqs /\
    total_length a = list_sum (map (fun e => String.length (snd e)) seqs).
Proof.
  intros Hok Hnd. eexists. split.
  - unfold analyze_fasta_content, load_fasta. simpl bind.
    rewrite load_save_inserts, fold_insert_fresh by done. reflexivity.
  - simpl. rewrite !length_map, !map_map. simpl.
    by repeat split.
Qed.

Lemma analyze_saved_witness :
  exists a,
    analyze_fasta_content "s.fasta"
      (Text (save_fasta [("lysozyme",
         "KVFGRCELAAAMKRHGLDNYRGYSLGNWVCAAKFESNFNTQATNRNTDGSTDYGILQINSRWWCNDGRTPGSRNLCNIPCSALLSSDITASVNCAKKIVSDGNGMNAWVAWRNRCKGTDVQAWIRGCRL");
         ("b", "T")])) = Ok a /\
    num_sequences a = 2%nat /\ total_length a = 130%nat.
Proof.
  destruct (analyze_saved "s.fasta"
              [("lysozyme",
                "KVFGRCELAAAMKRHGLDNYRGYSLGNWVCAAKFESNFNTQATNRNTDGSTDYGILQINSRWWCNDGRTPGSRNLCNIPCSALLSSDITASVNCAKKIVSDGNGMNAWVAWRNRCKGTDVQAWIRGCRL");
               ("b", "T")])
    as (a & Ha & Hn & _ & Ht).
  - repeat constructor; try discriminate; vm_compute; reflexivity.
  - repeat (constructor;
              [rewrite ?elem_of_cons, elem_of_nil; simpl; intuition discriminate|]).
    constructor.
  - exists a. split; [exact Ha|]. split; [exact Hn|]. rewrite Ht. reflexivity.
Defined.

(** *** Kinds of complex *)

(** All the sequences of a mapping are one and the same string. *)
Definition all_same (seqs : dict) : Prop :=
  forall s1 s2, In s1 (map snd seqs) -> In s2 (map snd seqs) -> s1 = s2.

Lemma forallb_first (v0 : string) (vs : list string) :
  forallb (fun s => String.eqb s v0) vs = true <-> (forall s, In s vs -> s = v0).
Proof.
  rewrite forallb_forall. split; intros H s Hs.
  - by apply String.eqb_eq, H.
  - by apply String.eqb_eq, H.
Qed.

(** X6: With two sequences [complex_type] is ['homodimer'] when they are equal
    and ['heterodimer'] when they differ; with three or more it is
    ['homo-Nmer'] (N the number of sequences) when all are equal and
    ['multimer'] otherwise. *)
Theorem complex_type_kinds (seqs : dict) :
  let a := analyze_sequences seqs in
  (length seqs = 2%nat ->
     (all_same seqs -> complex_type a = "homodimer") /\
     (~ all_same seqs -> complex_type a = "heterodimer")) /\
  ((2 < length seqs)%nat ->
     (all_same seqs ->
        complex_type a = "homo-" +:+ str_of_int (Z.of_nat (length seqs)) +:+ "mer") /\
     (~ all_same seqs -> complex_type a = "multimer")).
Proof.
  intros a. subst a. split.
  - destruct seqs as [|[h0 s0] [|[h1 s1] [|e seqs]]]; try done. intros _.
    unfold analyze_sequences. cbn [complex_type length Nat.eqb map snd].
    destruct (String.eqb_spec s0 s1) as [->|Hne]; split; try done.
    + intros Hn. exfalso. apply Hn. intros x y [<-|[<-|[]]] [<-|[<-|[]]]; done.
    + intros Hs. exfalso. apply Hne. apply Hs; simpl; auto.
  - intros Hlen. destruct seqs as [|[h0 s0] [|[h1 s1] [|e seqs]]]; simpl in Hlen; try lia.
    clear Hlen. unfold analyze_sequences.
    set (vs := map snd ((h0, s0) :: (h1, s1) :: e :: seqs)).
    cbn [complex_type length Nat.eqb].
    change (match vs with [] => true | v0 :: _ => forallb (fun s => String.eqb s v0) vs end)
      with (forallb (fun s => String.eqb s s0) vs).
    destruct (forallb (fun s => String.eqb s s0) vs) eqn:E; split; try done.
    + intros Hn. exfalso. apply Hn.
      pose proof (proj1 (forallb_first s0 vs) E) as E'.
      intros x y Hx Hy. rewrite (E' x Hx), (E' y Hy). done.
    + intros Hs. exfalso. apply not_true_iff_false in E. apply E.
      apply (proj2 (forallb_first s0 vs)). intros x Hx. apply Hs; [done|]. by left.
Qed.

Lemma complex_type_kinds_witness :
  complex_type (analyze_sequences [("a", "GG"); ("b", "GG")]) = "homodimer" /\
  complex_type (analyze_sequences [("a", "GG"); ("b", "GG"); ("c", "GT")]) = "multimer".
Proof.
  split.
  - destruct (complex_type_kinds [("a", "GG"); ("b", "GG")]) as [H2 _].
    destruct (H2 eq_refl) as [Hsame _]. apply Hsame.
    intros x y [<-|[<-|[]]] [<-|[<-|[]]]; reflexivity.
  - destruct (complex_type_kinds [("a", "GG"); ("b", "GG"); ("c", "GT")]) as [_ H3].
    destruct (H3 ltac:(simpl; lia)) as [_ Hdiff]. apply Hdiff.
    intros Hs. specialize (Hs "GG" "GT"). simpl in Hs.
    assert ("GG" = "GT") as E by (apply Hs; auto). discriminate E.
Defined.

Example written_gt_collides :
  load_fasta_text (save_fasta [(">a", "GG"); ("b", "T"); ("a", "CC")]) =
  [("a", "CC"); ("b", "T")].
Proof. reflexivity. Qed.

End Fasta.

(** ** scripts/lib/io.py: [safe_filename] *)

Module IoTools.
Import Py Os.

(** [c.isalnum()] on the code points below 256: the ASCII digits and
    letters, the Latin-1 letters, and the superscript digits and fractions. *)
Definition isalnum (c : ascii) : bool :=
  let n := N_of_ascii c in
  ((48 <=? n) && (n <=? 57) || (65 <=? n) && (n <=? 90) ||
   (97 <=? n) && (n <=? 122) ||
   (n =? 170) || (n =? 178) || (n =? 179) || (n =? 181) || (n =? 185) ||
   (n =? 186) || (188 <=? n) && (n <=? 190) ||
   (192 <=? n) && (n <=? 214) || (216 <=? n) && (n <=? 246) ||
   (248 <=? n) && (n <=? 255))%N.

(** [c in chars] for a single character [c]. *)
Fixpoint char_in (c : ascii) (chars : string) : bool :=
  match chars with
  | EmptyString => false
  | String x rest => Ascii.eqb c x || char_in c rest
  end.

(** The body of [for c in name], on the list [safe_chars]. *)
Definition add_safe_char (safe_chars : list ascii) (c : ascii) : list ascii :=
  if isalnum c || char_in c "-_" then safe_chars ++ [c]
  else if char_in c " ." then safe_chars ++ ["_"%char]
  else safe_chars.

(** [s.lstrip(a)], [s.rstrip(a)] and [s.strip(a)] for a single character. *)
Fixpoint lstrip_char (a : ascii) (s : string) : string :=
  match s with
  | EmptyString => EmptyString
  | String c rest => if Ascii.eqb c a then lstrip_char a rest else s
  end.

Fixpoint rstrip_char (a : ascii) (s : string) : string :=
  match s with
  | EmptyString => EmptyString
  | String c rest =>
      match rstrip_char a rest with
      | EmptyString => if Ascii.eqb c a then EmptyString else String c EmptyString
      | kept => String c kept
      end
  end.

Definition strip_char (a : ascii) (s : string) : string :=
  rstrip_char a (lstrip_char a s).

Definition safe_filename (name : string) : string :=
  let safe_chars := fold_left add_safe_char (list_ascii_of_string name) [] in
  let result := strip_char "_" (string_of_list_ascii safe_chars) in
  if truthy result then result else "protein".

(** A character [safe_filename] lets through unchanged. *)
Definition is_safe (c : ascii) : bool := isalnum c || char_in c "-_".

(** A name that needs no repair: not empty, safe characters only, no
    underscore at either end. *)
Definition safe_name (s : string) : Prop :=
  s <> EmptyString /\
  Io.string_forall is_safe s = true /\
  lstrip_char "_" s = s /\ rstrip_char "_" s = s.

Example safe_filename_header :
  safe_filename "insulin_chain_a|Insulin A chain" = "insulin_chain_aInsulin_A_chain".
Proof. reflexivity. Qed.

Example safe_filename_dots : safe_filename "..my protein.v2.." = "my_protein_v2".
Proof. reflexivity. Qed.

Example safe_filename_nothing_left : safe_filename " /|. " = "protein".
Proof. reflexivity. Qed.

(** What one character contributes. *)
Definition kept (c : ascii) : list ascii := add_safe_char [] c.

Lemma fold_add_safe_char (l acc : list ascii) :
  fold_left add_safe_char l acc = acc ++ flat_map kept l.
Proof.
  revert acc. induction l as [|c l IH]; intros acc; simpl.
  - by rewrite app_nil_r.
  - rewrite IH. unfold kept at 2, add_safe_char.
    destruct (isalnum c || char_in c "-_"); [by rewrite <- app_assoc|].
    destruct (char_in c " ."); [by rewrite <- app_assoc|]. done.
Qed.

Lemma forall_of_list (p : ascii -> bool) (l : list ascii) :
  Io.string_forall p (string_of_list_ascii l) = forallb p l.
Proof. induction l as [|c l IH]; simpl; [done|]. by rewrite IH. Qed.

Lemma forall_to_list (p : ascii -> bool) (s : string) :
  forallb p (list_ascii_of_string s) = Io.string_forall p s.
Proof. induction s as [|c s IH]; simpl; [done|]. by rewrite IH. Qed.

Lemma kept_safe (l : list ascii) : forallb is_safe (flat_map kept l) = true.
Proof.
  induction l as [|c l IH]; [done|]. simpl. rewrite forallb_app, IH, andb_true_r.
  unfold kept, add_safe_char. fold (is_safe c).
  destruct (is_safe c) eqn:E; [simpl; by rewrite E|].
  by destruct (char_in c " .").
Qed.

Lemma kept_id (l : list ascii) : forallb is_safe l = true -> flat_map kept l = l.
Proof.
  induction l as [|c l IH]; [done|]. simpl. intros H.
  apply andb_prop in H as [Hc Hl]. rewrite (IH Hl).
  unfold kept, add_safe_char. fold (is_safe c). by rewrite Hc.
Qed.

Lemma lstrip_char_forall (p : ascii -> bool) (a : ascii) (s : string) :
  Io.string_forall p s = true -> Io.string_forall p (lstrip_char a s) = true.
Proof.
  induction s as [|c s IH]; [done|]. simpl. intros H.
  destruct (Ascii.eqb c a); [|done]. apply andb_prop in H as [_ H]. by apply IH.
Qed.

Lemma rstrip_char_forall (p : ascii -> bool) (a : ascii) (s : string) :
  Io.string_forall p s = true -> Io.string_forall p (rstrip_char a s) = true.
Proof.
  induction s as [|c s IH]; [done|]. simpl. intros H.
  apply andb_prop in H as [Hc H]. specialize (IH H).
  destruct (rstrip_char a s) as [|k ks].
  - destruct (Ascii.eqb c a); [done|]. simpl. by rewrite Hc.
  - simpl. simpl in IH. by rewrite Hc, IH.
Qed.

(** No [a] in first position. *)
Definition head_not (a : ascii) (s : string) : bool :=
  match s with
  | EmptyString => true
  | String c _ => negb (Ascii.eqb c a)
  end.

Lemma lstrip_char_head (a : ascii) (s : string) : head_not a (lstrip_char a s) = true.
Proof.
  induction s as [|c s IH]; [done|]. simpl.
  destruct (Ascii.eqb c a) eqn:E; [done|]. simpl. by rewrite E.
Qed.

Lemma head_not_lstrip (a : ascii) (s : string) :
  head_not a s = true -> lstrip_char a s = s.
Proof. destruct s as [|c s]; [done|]. simpl. by destruct (Ascii.eqb c a). Qed.

Lemma rstrip_char_head (a : ascii) (s : string) :
  head_not a s = true -> head_not a (rstrip_char a s) = true.
Proof.
  destruct s as [|c s]; [done|]. simpl.
  destruct (Ascii.eqb c a) eqn:E; [done|]. intros _.
  destruct (rstrip_char a s); simpl; by rewrite E.
Qed.

Lemma rstrip_char_idem (a : ascii) (s : string) :
  rstrip_char a (rstrip_char a s) = rstrip_char a s.
Proof.
  induction s as [|c s IH]; [done|]. simpl.
  destruct (rstrip_char a s) as [|k ks] eqn:E.
  - destruct (Ascii.eqb c a) eqn:Hc; [done|]. simpl. by rewrite Hc.
  - simpl. simpl in IH. by rewrite IH.
Qed.

(** What is left after the loop and the [strip('_')]. *)
Lemma stripped_safe (name : string) :
  let result :=
    strip_char "_" (string_of_list_ascii
                      (fold_left add_safe_char (list_ascii_of_string name) [])) in
  Io.string_forall is_safe result = true /\
  lstrip_char "_" result = result /\ rstrip_char "_" result = result.
Proof.
  intros result. subst result. rewrite fold_add_safe_char. simpl app.
  unfold strip_char. split; [|split].
  - apply rstrip_char_forall, lstrip_char_forall.
    rewrite forall_of_list. apply kept_safe.
  - apply head_not_lstrip, rstrip_char_head, lstrip_char_head.
  - apply rstrip_char_idem.
Qed.

Lemma safe_filename_is_safe (name : string) : safe_name (safe_filename name).
Proof.
  unfold safe_filename. destruct (stripped_safe name) as (Hall & Hl & Hr).
  cbv zeta in *.
  destruct (strip_char "_" _) as [|c r] eqn:E; simpl truthy; cbv iota.
  - repeat split; done.
  - repeat split; done.
Qed.

Lemma safe_name_fixed (s : string) : safe_name s -> safe_filename s = s.
Proof.
  intros (Hne & Hall & Hl & Hr). unfold safe_filename.
  rewrite fold_add_safe_char. simpl app.
  rewrite kept_id by (by rewrite forall_to_list).
  rewrite string_of_list_ascii_of_string. unfold strip_char. rewrite Hl, Hr.
  by destruct s.
Qed.

(** X7: Whatever the input, [safe_filename] returns a non-empty name made of
    alphanumeric characters, hyphens and underscores only, with no
    underscore at either end. *)
Theorem safe_filename_safe (name : string) :
  let result := safe_filename name in
  result <> EmptyString /\
  Io.string_forall (fun c => isalnum c || char_in c "-_") result = true /\
  lstrip_char "_" result = result /\ rstrip_char "_" result = result.
Proof. apply safe_filename_is_safe. Qed.

(** X8: [safe_filename] changes nothing the second time. *)
Theorem safe_filename_idempotent (name : string) :
  safe_filename (safe_filename name) = safe_filename name.
Proof. apply safe_name_fixed, safe_filename_is_safe. Qed.

(** X9: The names [safe_filename] returns unchanged are exactly the names that
    are non-empty, made of safe characters only and free of underscores at
    both ends. *)
Theorem safe_filename_fixed_points (s : string) :
  safe_filename s = s <-> safe_name s.
Proof.
  split.
  - intros <-. apply safe_filename_is_safe.
  - apply safe_name_fixed.
Qed.

End IoTools.

(** ** scripts/lib/utils.py: [validate_fasta_file] and the shape of the argv *)

Module UtilsTools.
Import Py Os Utils.

(** [f.readline()] on a file just opened: the first line with its newline,
    [''] for an empty file. *)
Definition readline (content : string) : string :=
  match read_lines content with
  | [] => EmptyString
  | line :: _ => line
  end.

Definition validate_fasta_file (f : node) : bool :=
  match f with
  | Missing => false
  | Unreadable _ => false
  | Text content => startswith ">" (Io.strip (readline content))
  end.

Example validate_blank_first_line :
  validate_fasta_file (Text (String LF ">a" +:+ String LF "GG")) = false.
Proof. reflexivity. Qed.

Lemma startswith_append (p x : string) : startswith p (p +:+ x) = true.
Proof.
  unfold startswith. induction p as [|c p IH]; [by destruct x|].
  rewrite Io.append_cons.
  change (String.prefix (String c p) (String c (p +:+ x)))
    with (if ascii_dec c c then String.prefix p (p +:+ x) else false).
  by destruct (ascii_dec c c).
Qed.

Lemma written_header_gt (header : string) :
  exists t, (if startswith ">" header then header else ">" +:+ header) = String ">" t.
Proof.
  destruct (startswith ">" header) eqn:E; [|by exists header].
  destruct header as [|c h]; [done|]. rewrite Io.startswith_char in E.
  apply Ascii.eqb_eq in E as ->. by exists h.
Qed.

Lemma first_line_gt (t : string) :
  exists l, readline (String ">" t) = String ">" l.
Proof.
  unfold readline, read_lines.
  change (universal_newlines (String ">" t)) with (String ">" (universal_newlines t)).
  change (split_keepends (String ">" (universal_newlines t)))
    with (match split_keepends (universal_newlines t) with
          | [] => [String ">" EmptyString]
          | line :: lines => String ">" line :: lines
          end).
  destruct (split_keepends (universal_newlines t)) as [|l ls]; eauto.
Qed.

Lemma strip_gt (l : string) : startswith ">" (Io.strip (String ">" l)) = true.
Proof.
  unfold Io.strip. change (Io.lstrip (String ">" l)) with (String ">" l).
  change (Io.rstrip (String ">" l))
    with (match Io.rstrip l with
          | EmptyString => String ">" EmptyString
          | kept => String ">" kept
          end).
  destruct (Io.rstrip l); by rewrite Io.startswith_char.
Qed.

(** X10: [validate_fasta_file] accepts every file [save_fasta] writes from a
    non-empty mapping, whatever the headers and sequences are, and rejects
    the empty file written from the empty mapping. *)
Theorem validate_saved (seqs : Io.dict) :
  validate_fasta_file (Text (Io.save_fasta seqs)) =
  match seqs with [] => false | _ :: _ => true end.
Proof.
  destruct seqs as [|[h sq] seqs]; [done|].
  unfold validate_fasta_file. rewrite Io.save_fasta_unlines.
  change (flat_map Io.entry_lines ((h, sq) :: seqs))
    with (Io.entry_lines (h, sq) ++ flat_map Io.entry_lines seqs).
  unfold Io.entry_lines at 1. rewrite <- app_comm_cons, Io.unlines_cons.
  destruct (written_header_gt h) as [t ->].
  unfold Io.with_newline. rewrite !Io.append_cons.
  destruct (first_line_gt ((t +:+ String LF "") +:+ Io.unlines (Io.chunks sq ++ flat_map Io.entry_lines seqs)))
    as [l ->].
  apply strip_gt.
Qed.

(** *** The argv of [build_alphafold_command] *)

(** A keyword argument that is rendered: anything but None and False. *)
Definition renders (kv : string * value) : bool :=
  match snd kv with
  | VNone => false
  | VBool b => b
  | _ => true
  end.

Lemma flag_token (r x : string) :
  startswith "--" (String "-" (String "-" r) +:+ x) = true.
Proof. apply (startswith_append "--" (r +:+ x)). Qed.

Lemma kwarg_tokens_flags (kv : string * value) :
  Forall (fun tok => startswith "--" tok = true) (kwarg_tokens kv).
Proof.
  destruct kv as [key [|[]| |]]; simpl; repeat constructor; apply startswith_append.
Qed.

Lemma kwarg_tokens_length (kv : string * value) :
  length (kwarg_tokens kv) = if renders kv then 1%nat else 0%nat.
Proof. by destruct kv as [key [|[]| |]]. Qed.

(** X11: After the interpreter and the script, every token of the argv is a
    flag: it starts with [--]. *)
Theorem argv_flags fp od sc dd mp dp mtd np (kw : kwargs) :
  exists flags,
    build_alphafold_command fp od sc dd mp dp mtd np kw = "python" :: sc :: flags /\
    Forall (fun tok => startswith "--" tok = true) flags.
Proof.
  rewrite build_alphafold_command_prefix.
  assert (Forall (fun tok => startswith "--" tok = true) (flat_map kwarg_tokens kw)) as Hkw.
  { induction kw as [|kv kw IH]; [constructor|]. simpl.
    apply Forall_app. split; [apply kwarg_tokens_flags|exact IH]. }
  unfold build_alphafold_command.
  destruct dd as [[|c d]|], np as [n|]; simpl; eexists; (split; [reflexivity|]);
    repeat (constructor; [apply flag_token|]); exact Hkw.
Qed.

(** X12: The argv holds the seven leading tokens, one token for a non-empty
    [data_dir], one for a given [num_predictions_per_model] and one for each
    extra argument that is neither None nor False: nothing is rendered
    twice and nothing else is added. *)
Theorem argv_length fp od sc dd mp dp mtd np (kw : kwargs) :
  length (build_alphafold_command fp od sc dd mp dp mtd np kw) =
  (7 + (match dd with Some d => if truthy d then 1 else 0 | None => 0 end)
     + (match np with Some _ => 1 | None => 0 end)
     + length (List.filter renders kw))%nat.
Proof.
  rewrite build_alphafold_command_prefix, length_app.
  assert (length (flat_map kwarg_tokens kw) = length (List.filter renders kw)) as ->.
  { induction kw as [|kv kw IH]; [done|]. simpl.
    rewrite length_app, kwarg_tokens_length, IH. by destruct (renders kv). }
  unfold build_alphafold_command.
  by destruct dd as [[|c d]|], np as [n|].
Qed.

End UtilsTools.

(** ** scripts/batch_prediction.py: which files a batch finds and when it succeeds *)

Module BatchFiles.
Import Py Os Batch.

(** The name ends with one of the four FASTA extensions. *)
Definition has_fasta_extension (name : string) : bool :=
  existsb (fun ext => Pathlib.endswith ext name) fasta_extensions.

(** The file can be opened and read as text. *)
Definition readable (f : node) : Prop := exists content, f = Text content.

Lemma globbed_parts (d : directory) :
  globbed d = glob ".fasta" d ++ glob ".fa" d ++ glob ".fas" d ++ glob ".faa" d.
Proof. unfold globbed. simpl. by rewrite <- !app_assoc. Qed.

Lemma in_glob (ext name : string) (d : directory) :
  In name (glob ext d) <-> In name (map fst d) /\ Pathlib.endswith ext name = true.
Proof. unfold glob. apply filter_In. Qed.

Lemma in_globbed (name : string) (d : directory) :
  In name (globbed d) <-> In name (map fst d) /\ has_fasta_extension name = true.
Proof.
  rewrite globbed_parts, !in_app_iff, !in_glob. unfold has_fasta_extension. simpl.
  rewrite !orb_true_iff. intuition discriminate.
Qed.

Lemma in_found (name : string) (d : directory) :
  In name (find_fasta_files d) <-> In name (globbed d).
Proof.
  unfold find_fasta_files. rewrite <- !list_elem_of_In.
  by rewrite merge_sort_Permutation.
Qed.

(** X13: [find_fasta_files] returns exactly the names of the directory that end
    with [.fasta], [.fa], [.fas] or [.faa]: no other entry is ever
    processed, and none of these is left out. *)
Theorem find_fasta_files_exact (d : directory) (name : string) :
  In name (find_fasta_files d) <->
  In name (map fst d) /\ has_fasta_extension name = true.
Proof. by rewrite in_found, in_globbed. Qed.

(** *** No file twice *)

Lemma list_of_append (a b : string) :
  list_ascii_of_string (a +:+ b) = list_ascii_of_string a ++ list_ascii_of_string b.
Proof.
  induction a as [|c a IH]; [done|]. rewrite Io.append_cons. simpl. by rewrite IH.
Qed.

Lemma endswith_suffix (ext name : string) :
  Pathlib.endswith ext name = true ->
  list_ascii_of_string ext `suffix_of` list_ascii_of_string name.
Proof.
  unfold Pathlib.endswith. intros H. apply andb_prop in H as [Hlen Heq].
  apply Nat.leb_le in Hlen. apply String.eqb_eq in Heq.
  exists (list_ascii_of_string
            (String.substring 0 (String.length name - String.length ext) name)).
  rewrite <- Heq at 2. rewrite <- list_of_append, Io.substring_split.
  by rewrite Io.substring_all by lia.
Qed.

Lemma extension_unique (name e1 e2 : string) :
  In e1 fasta_extensions -> In e2 fasta_extensions ->
  Pathlib.endswith e1 name = true -> Pathlib.endswith e2 name = true -> e1 = e2.
Proof.
  intros H1 H2 E1 E2.
  apply endswith_suffix in E1. apply endswith_suffix in E2.
  destruct (suffix_weak_total _ _ _ E1 E2) as [[k Hk]|[k Hk]];
    simpl in H1, H2;
    destruct H1 as [<-|[<-|[<-|[<-|[]]]]], H2 as [<-|[<-|[<-|[<-|[]]]]];
    try reflexivity; exfalso;
    pose proof (f_equal length Hk) as Hlen; rewrite length_app in Hlen;
    simpl in Hk, Hlen;
    do 4 (destruct k as [|? k]; simpl in Hk, Hlen; [try lia; try discriminate Hk|]);
    lia.
Qed.

Lemma NoDup_list_filter {A : Type} (f : A -> bool) (l : list A) :
  NoDup l -> NoDup (List.filter f l).
Proof.
  induction 1 as [|x l Hx _ IH]; simpl; [constructor|].
  destruct (f x); [|done]. constructor; [|done].
  rewrite list_elem_of_In, filter_In. rewrite <- list_elem_of_In. tauto.
Qed.

Lemma glob_disjoint (e1 e2 : string) (d : directory) (name : string) :
  In e1 fasta_extensions -> In e2 fasta_extensions -> e1 <> e2 ->
  name ∈ glob e1 d -> name ∈ glob e2 d -> False.
Proof.
  intros H1 H2 Hne Hn1 Hn2.
  apply list_elem_of_In, in_glob in Hn1 as [_ Hn1].
  apply list_elem_of_In, in_glob in Hn2 as [_ Hn2].
  apply Hne. by apply (extension_unique name).
Qed.

(** X14: When the names of the directory are distinct, no file is found twice:
    a name cannot end with two of the four extensions. *)
Theorem find_fasta_files_no_dup (d : directory) :
  NoDup (map fst d) -> NoDup (find_fasta_files d).
Proof.
  intros Hd. unfold find_fasta_files. rewrite merge_sort_Permutation, globbed_parts.
  assert (forall ext, NoDup (glob ext d)) as Hg
    by (intros ext; by apply NoDup_list_filter).
  repeat (apply NoDup_app; split; [apply Hg|split; [|]]); [..|apply Hg].
  - intros x Hx Hin. rewrite !elem_of_app in Hin.
    destruct Hin as [Hin|[Hin|Hin]];
      (eapply (glob_disjoint _ _ d x); [| | |exact Hx|exact Hin]);
      simpl; auto 6; discriminate.
  - intros x Hx Hin. rewrite !elem_of_app in Hin.
    destruct Hin as [Hin|Hin];
      (eapply (glob_disjoint _ _ d x); [| | |exact Hx|exact Hin]);
      simpl; auto 6; discriminate.
  - intros x Hx Hin.
    eapply (glob_disjoint _ _ d x); [| | |exact Hx|exact Hin];
      simpl; auto 6; discriminate.
Qed.

Lemma find_fasta_files_no_dup_witness :
  NoDup (find_fasta_files [("b.fa", Text ""); ("a.fasta", Text ""); ("b.fas", Text "")]).
Proof.
  apply find_fasta_files_no_dup.
  repeat (constructor;
            [rewrite ?elem_of_cons, elem_of_nil; simpl; intuition discriminate|]).
  constructor.
Defined.

(** *** The order of the listing does not matter *)

Lemma list_filter_Permutation {A : Type} (f : A -> bool) (l k : list A) :
  l ≡ₚ k -> List.filter f l ≡ₚ List.filter f k.
Proof.
  induction 1 as [|x l k _ IH|x y l|l k m _ IH1 _ IH2]; simpl.
  - done.
  - destruct (f x); [by constructor|done].
  - destruct (f x), (f y); try done. apply perm_swap.
  - by etrans.
Qed.

(** X15: Two listings of the same entries in different orders give the same
    list of files, in the same order. *)
Theorem find_fasta_files_order_free (d d' : directory) :
  d ≡ₚ d' -> find_fasta_files d = find_fasta_files d'.
Proof.
  intros Hperm. unfold find_fasta_files.
  apply (Sorted_unique String.le).
  - apply Sorted_merge_sort. apply _.
  - apply Sorted_merge_sort. apply _.
  - rewrite !merge_sort_Permutation, !globbed_parts. unfold glob.
    assert (map fst d ≡ₚ map fst d') as Hn by (by apply fmap_Permutation).
    by rewrite !(list_filter_Permutation _ _ _ Hn).
Qed.

Lemma find_fasta_files_order_free_witness :
  find_fasta_files [("b.fa", Text ""); ("a.fasta", Text ""); ("c.txt", Text "")] =
  find_fasta_files [("c.txt", Text ""); ("a.fasta", Text ""); ("b.fa", Text "")].
Proof.
  apply find_fasta_files_order_free.
  transitivity [("a.fasta", Text ""); ("b.fa", Text ""); ("c.txt", Text "")];
    [apply perm_swap|].
  transitivity [("a.fasta", Text ""); ("c.txt", Text ""); ("b.fa", Text "")];
    [apply perm_skip, perm_swap|].
  apply perm_swap.
Defined.

(** *** How a run ends *)





Lemma process_single_file_success input_dir name (f : node) out (cfg : config) script :
  result_success (process_single_file input_dir name f out cfg script) = true <->
  readable f.
Proof.
  unfold process_single_file, readable.
  destruct f as [|content|msg].
  - split; [done|]. by intros [c Hc].
  - unfold Io.analyze_fasta_content, Io.load_fasta, bind.
    destruct (Io.is_multimer (Io.analyze_sequences (Io.load_fasta_text content)));
      split; eauto.
  - split; [done|]. by intros [c Hc].
Qed.

Lemma none_filtered {A : Type} (g : A -> bool) (l : list A) :
  length (List.filter g l) = 0%nat <-> (forall x, In x l -> g x = false).
Proof.
  induction l as [|x l IH]; simpl; [by split|].
  destruct (g x) eqn:E; simpl.
  - split; [done|]. intros H. specialize (H x (or_introl eq_refl)). congruence.
  - rewrite IH. split.
    + intros H y [<-|Hy]; auto.
    + intros H y Hy. apply H. by right.
Qed.

(** X17: The summary reports success exactly when every file found could be
    read: one unreadable file is enough to make the whole batch fail, and
    nothing else does. *)
Theorem batch_success_iff_readable
    input_dir (state : option directory) (out : option string) (cfg : config)
    results_dir script (d : directory) (s : summary) :
  prepare_input input_dir state cfg = Ok d ->
  run_batch_prediction input_dir state out cfg results_dir script = Ok (Summary s) ->
  (success s = true <->
   forall name, In name (find_fasta_files d) -> readable (lookup_entry name d)).
Proof.
  intros Hprep. unfold run_batch_prediction. rewrite Hprep. simpl bind.
  destruct (find_fasta_files d) as [|name files] eqn:E; [done|]. rewrite <- E.
  set (o := match out with None => _ | Some o => o end).
  pose proof (process_loop input_dir d o cfg script (find_fasta_files d)
                {| processed_results := []; monomers := 0; multimers := 0; errors := 0 |})
    as (_ & _ & _ & He).
  simpl in He. intros [= <-]. simpl. rewrite He, Nat.eqb_eq, none_filtered.
  split.
  - intros H n Hn. apply (process_single_file_success input_dir n _ o cfg script).
    apply negb_false_iff. apply H. apply in_map_iff. eauto.
  - intros H r Hr. apply in_map_iff in Hr as (n & <- & Hn).
    apply negb_false_iff. apply process_single_file_success. by apply H.
Qed.

Lemma batch_success_iff_readable_witness :
  exists s,
    run_batch_prediction "in"
      (Some [("b.fa", Text (">x" +:+ String LF "GIVEQ")); ("c.fasta", Unreadable "denied")])
      None DEFAULT_CONFIG "results" "run_alphafold.py" = Ok (Summary s) /\
    success s = false.
Proof.
  set (d := [("b.fa", Text (">x" +:+ String LF "GIVEQ")); ("c.fasta", Unreadable "denied")]).
  destruct (run_batch_prediction "in" (Some d) None DEFAULT_CONFIG "results"
              "run_alphafold.py") as [[e|s]|e] eqn:Hrun;
    try (vm_compute in Hrun; discriminate Hrun).
  exists s. split; [reflexivity|].
  destruct (success s) eqn:Hs; [|reflexivity]. exfalso.
  pose proof (proj1 (batch_success_iff_readable "in" (Some d) None DEFAULT_CONFIG
                       "results" "run_alphafold.py" d s eq_refl Hrun) Hs "c.fasta")
    as Hread.
  destruct Hread as [content Hc].
  - vm_compute. auto.
  - vm_compute in Hc. discriminate Hc.
Defined.

End BatchFiles.

(** ** What the prediction scripts share *)

Module Scripts.
Import Py Os.

(** The exceptions that can leave a script's main function: a missing
    dictionary key, or one of the file errors. *)
Inductive script_exn : Type :=
| KeyError (key : string)
| FileError (e : exn).

Inductive outcome (A : Type) : Type :=
| Return (a : A)
| Throw (e : script_exn).
Arguments Return {A} _.
Arguments Throw {A} _.

Definition bind {A B : Type} (m : outcome A) (k : A -> outcome B) : outcome B :=
  match m with
  | Return a => k a
  | Throw e => Throw e
  end.

(** [create_sample_sequences()] of [lib/utils.py]. *)
Definition create_sample_sequences : Io.dict :=
  [ ("insulin_chain_a", Utils.insulin_chain_a);
    ("insulin_chain_b", Utils.insulin_chain_b);
    ("small_protein", Utils.small_protein);
    ("lysozyme",
     "KVFGRCELAAAMKRHGLDNYRGYSLGNWVCAAKFESNFNTQATNRNTDGSTDYGILQINSRWWCNDGRTPGSRNLCNIPCSALLSSDITASVNCAKKIVSDGNGMNAWVAWRNRCKGTDVQAWIRGCRL") ].

(** [key in d]. *)
Definition contains (key : string) (d : Io.dict) : bool :=
  existsb (fun kv => String.eqb (fst kv) key) d.

(** [d[key]]: the value, or [KeyError]. *)
Definition getitem (key : string) (d : Io.dict) : outcome string :=
  match List.find (fun kv => String.eqb (fst kv) key) d with
  | Some kv => Return (snd kv)
  | None => Throw (KeyError key)
  end.

End Scripts.

(** ** scripts/monomer_prediction.py *)

Module Monomer.
Import Py Os Scripts.

Record config : Type := {
  model_preset : string;
  db_preset : string;
  max_template_date : string;
  demo_mode : bool;
  create_sample_if_missing : bool;
  sample_sequence : string;
  data_dir : option string
}.

Definition DEFAULT_CONFIG : config :=
  {| model_preset := "monomer";
     db_preset := "reduced_dbs";
     max_template_date := "2022-01-01";
     demo_mode := true;
     create_sample_if_missing := true;
     sample_sequence := "insulin_chain_a";
     data_dir := None |}.

(** [create_sample_fasta]: the text written to [output_path]. *)
Definition create_sample_fasta (sequence_name : string) : outcome string :=
  let sample_sequences := create_sample_sequences in
  let sequence_name :=
    if negb (contains sequence_name sample_sequences)
    then "insulin_chain_a" else sequence_name in
  match getitem sequence_name sample_sequences with
  | Throw e => Throw e
  | Return sequence =>
      Return (Io.save_fasta
                [(sequence_name +:+ "|Example protein for AlphaFold prediction", sequence)])
  end.

(** The two dictionaries [run_monomer_prediction] returns. The third one,
    for an exception while the command is built, has no way to arise here:
    neither [build_alphafold_command] nor [estimate_resources] raises on
    strings and numbers. *)
Inductive run_result : Type :=
| Prepared (success : bool) (command : list string) (output_dir : string)
           (input_file : string) (cfg : config) (analysis : Io.analysis)
           (resources : Utils.resources)
| AnalysisFailed (error : string) (input_file : string).


Example sample_fasta_fallback :
  create_sample_fasta "no such protein" = create_sample_fasta "insulin_chain_a".
Proof. reflexivity. Qed.

(** The name the sample is written under. *)
Definition sample_name (sequence_name : string) : string :=
  if contains sequence_name create_sample_sequences then sequence_name
  else "insulin_chain_a".

Lemma sample_names (sequence_name : string) :
  In (sample_name sequence_name) (map fst create_sample_sequences).
Proof.
  unfold sample_name, contains, create_sample_sequences. cbn [existsb fst map].
  destruct (String.eqb_spec "insulin_chain_a" sequence_name) as [<-|_];
    [cbn [orb In]; auto 8|].
  destruct (String.eqb_spec "insulin_chain_b" sequence_name) as [<-|_];
    [cbn [orb In]; auto 8|].
  destruct (String.eqb_spec "small_protein" sequence_name) as [<-|_];
    [cbn [orb In]; auto 8|].
  destruct (String.eqb_spec "lysozyme" sequence_name) as [<-|_];
    cbn [orb In]; auto 8.
Qed.

Lemma create_sample_fasta_by_name (sequence_name : string) :
  create_sample_fasta sequence_name = create_sample_fasta (sample_name sequence_name).
Proof.
  unfold sample_name.
  destruct (contains sequence_name create_sample_sequences) eqn:E; [done|].
  unfold create_sample_fasta at 1. cbv zeta. by rewrite E.
Qed.


(** X18: Whatever sequence name is asked for, [create_sample_fasta] raises no
    [KeyError]: an unknown name is replaced by [insulin_chain_a]; and the
    file it writes reads back as exactly one entry, the header starting with
    the name used and the sequence taken from the samples, so that it is
    analysed as a monomer. *)
Theorem create_sample_fasta_single (sequence_name : string) :
  exists content sequence,
    create_sample_fasta sequence_name = Return content /\
    In (sample_name sequence_name, sequence) create_sample_sequences /\
    Io.load_fasta_text content =
      [(sample_name sequence_name +:+ "|Example protein for AlphaFold prediction",
        sequence)] /\
    Io.is_multimer (Io.analyze_sequences (Io.load_fasta_text content)) = false /\
    Io.complex_type (Io.analyze_sequences (Io.load_fasta_text content)) = "monomer".
Proof.
  rewrite create_sample_fasta_by_name.
  pose proof (sample_names sequence_name) as Hin.
  destruct Hin as [<-|[<-|[<-|[<-|[]]]]];
    eexists; eexists; (split; [reflexivity|]); simpl; (split; [auto 8|]);
    (split; [vm_compute; reflexivity|]); split; vm_compute; reflexivity.
Qed.



End Monomer.

(** ** scripts/multimer_prediction.py *)

Module Multimer.
Import Py Os Scripts.

Record config : Type := {
  model_preset : string;
  db_preset : string;
  max_template_date : string;
  num_predictions_per_model : Z;
  demo_mode : bool;
  create_sample_if_missing : bool;
  sample_complex_type : string;
  data_dir : option string
}.

Definition DEFAULT_CONFIG : config :=
  {| model_preset := "multimer";
     db_preset := "reduced_dbs";
     max_template_date := "2022-01-01";
     num_predictions_per_model := 5;
     demo_mode := true;
     create_sample_if_missing := true;
     sample_complex_type := "heterodimer";
     data_dir := None |}.

(** A dictionary literal [{header: sample_sequences[key], ...}]: the
    entries are evaluated and inserted from left to right. *)
Definition literal (entries : list (string * string)) : outcome Io.dict :=
  fold_left
    (fun acc entry =>
       bind acc (fun d =>
       bind (getitem (snd entry) create_sample_sequences) (fun sequence =>
       Return (Io.dict_set (fst entry) sequence d))))
    entries (Return []).

(** [create_sample_multimer_fasta]: the text written to [output_path]. *)
Definition create_sample_multimer_fasta (complex_type : string) : outcome string :=
  let sequences :=
    if String.eqb complex_type "heterodimer" then
      literal [ ("insulin_chain_a|Insulin A chain", "insulin_chain_a");
                ("insulin_chain_b|Insulin B chain", "insulin_chain_b") ]
    else if String.eqb complex_type "homodimer" then
      literal [ ("protein_copy_1|First copy of homodimer", "insulin_chain_a");
                ("protein_copy_2|Second copy of homodimer", "insulin_chain_a") ]
    else if String.eqb complex_type "trimer" then
      literal [ ("protein_a|Protein A in trimer", "insulin_chain_a");
                ("protein_b|Protein B in trimer", "insulin_chain_b");
                ("protein_c|Protein C in trimer", "small_protein") ]
    else
      literal [ ("protein_1|First protein", "insulin_chain_a");
                ("protein_2|Second protein", "insulin_chain_b") ] in
  bind sequences (fun sequences => Return (Io.save_fasta sequences)).

Inductive run_result : Type :=
| Prepared (success : bool) (command : list string) (output_dir : string)
           (input_file : string) (cfg : config) (analysis : Io.analysis)
           (resources : Utils.resources)
| AnalysisFailed (error : string) (input_file : string).


Example sample_heterodimer_order :
  bind (create_sample_multimer_fasta "heterodimer")
       (fun content => Return (map fst (Io.load_fasta_text content))) =
  Return ["insulin_chain_a|Insulin A chain"; "insulin_chain_b|Insulin B chain"].
Proof. reflexivity. Qed.


(** X20: Whatever complex type is asked for, [create_sample_multimer_fasta]
    raises nothing and writes a file that is analysed as a multimer: two
    equal chains for ['homodimer'], three chains for ['trimer'], and two
    different chains for ['heterodimer'] and for every other string. *)
Theorem create_sample_multimer_fasta_multimer (complex_type : string) :
  exists content,
    create_sample_multimer_fasta complex_type = Return content /\
    let a := Io.analyze_sequences (Io.load_fasta_text content) in
    Io.is_multimer a = true /\
    (complex_type = "homodimer" -> Io.complex_type a = "homodimer") /\
    (complex_type = "trimer" ->
       Io.num_sequences a = 3%nat /\ Io.complex_type a = "multimer") /\
    (complex_type <> "homodimer" -> complex_type <> "trimer" ->
       Io.num_sequences a = 2%nat /\ Io.complex_type a = "heterodimer").
Proof.
  unfold create_sample_multimer_fasta.
  destruct (String.eqb_spec complex_type "heterodimer") as [->|H1].
  { eexists. split; [reflexivity|]. vm_compute. repeat split; try done. }
  destruct (String.eqb_spec complex_type "homodimer") as [->|H2].
  { eexists. split; [reflexivity|]. vm_compute. repeat split; try done. }
  destruct (String.eqb_spec complex_type "trimer") as [->|H3].
  { eexists. split; [reflexivity|]. vm_compute. repeat split; try done. }
  eexists. split; [reflexivity|]. cbv zeta. split; [vm_compute; reflexivity|].
  split; [done|]. split; [done|]. intros _ _. split; vm_compute; reflexivity.
Qed.

Lemma create_sample_multimer_fasta_multimer_witness :
  exists content,
    create_sample_multimer_fasta "tetramer" = Return content /\
    Io.num_sequences (Io.analyze_sequences (Io.load_fasta_text content)) = 2%nat /\
    Io.complex_type (Io.analyze_sequences (Io.load_fasta_text content)) = "heterodimer".
Proof.
  destruct (create_sample_multimer_fasta_multimer "tetramer")
    as (content & Hc & _ & _ & _ & Hother).
  exists content. split; [exact Hc|]. apply Hother; discriminate.
Defined.



End Multimer.

(** ** src/server.py: [analyze_fasta_file] *)

Module ServerTools.
Import Py Os.

(** The two dictionaries the tool answers with. *)
Inductive tool_reply : Type :=
| AnalysisReport (analysis : Io.analysis) (recommendation estimated_time note : string)
| ToolError (error : string).

Definition recommend_multimer : string := "Use submit_multimer_prediction() for this file".
Definition recommend_monomer : string := "Use submit_monomer_prediction() for this file".

Definition analyze_fasta_file (input_file : string) (f : node) : tool_reply :=
  match Io.analyze_fasta_content input_file f with
  | Ok analysis =>
      let '(recommendation, estimated_time) :=
        if Io.is_multimer analysis
        then (recommend_multimer, "60+ minutes")
        else (recommend_monomer, "30+ minutes") in
      AnalysisReport analysis recommendation estimated_time
        "Times are estimates and depend on sequence length and system resources"
  | Raise (FileNotFoundError _) => ToolError ("File not found: " +:+ input_file)
  | Raise e => ToolError (exn_message e)
  end.

Example analyze_empty_file :
  match analyze_fasta_file "e.fasta" (Text "") with
  | AnalysisReport a r _ _ => (Io.num_sequences a, r)
  | ToolError _ => (1%nat, "")
  end = (0%nat, recommend_monomer).
Proof. reflexivity. Qed.

(** X22: [analyze_fasta_file] always answers. For a missing file the answer is
    the error "File not found: <input_file>", for a file that cannot be read
    the error carries the exception's message. For a readable file it
    recommends [submit_multimer_prediction] with "60+ minutes" exactly when
    the file holds more than one sequence, and [submit_monomer_prediction]
    with "30+ minutes" otherwise, also for a file without any sequence. *)
Theorem analyze_fasta_file_answers (input_file : string) (f : node) :
  (f = Missing ->
     analyze_fasta_file input_file f = ToolError ("File not found: " +:+ input_file)) /\
  (forall msg, f = Unreadable msg -> analyze_fasta_file input_file f = ToolError msg) /\
  (forall content, f = Text content ->
     exists recommendation estimated_time note,
       let a := Io.analyze_sequences (Io.load_fasta_text content) in
       analyze_fasta_file input_file f =
         AnalysisReport a recommendation estimated_time note /\
       ((1 < Io.num_sequences a)%nat ->
          recommendation = recommend_multimer /\ estimated_time = "60+ minutes") /\
       ((Io.num_sequences a <= 1)%nat ->
          recommendation = recommend_monomer /\ estimated_time = "30+ minutes")).
Proof.
  split; [|split].
  - by intros ->.
  - by intros msg ->.
  - intros content ->. unfold analyze_fasta_file.
    unfold Io.analyze_fasta_content, Io.load_fasta, bind.
    set (a := Io.analyze_sequences (Io.load_fasta_text content)).
    assert (Io.is_multimer a = (1 <? Io.num_sequences a)%nat) as Hm by reflexivity.
    destruct (Io.is_multimer a) eqn:E; symmetry in Hm.
    + apply Nat.ltb_lt in Hm. do 3 eexists. split; [reflexivity|]. split; [done|lia].
    + apply Nat.ltb_ge in Hm. do 3 eexists. split; [reflexivity|]. split; [lia|done].
Qed.

Lemma analyze_fasta_file_answers_witness :
  analyze_fasta_file "gone.fasta" Missing = ToolError "File not found: gone.fasta" /\
  exists a t note,
    analyze_fasta_file "c.fasta"
      (Text (">x" +:+ String LF "GG" +:+ String LF ">y" +:+ String LF "TT")) =
    AnalysisReport a recommend_multimer t note.
Proof.
  split.
  - exact (proj1 (analyze_fasta_file_answers "gone.fasta" Missing) eq_refl).
  - destruct (analyze_fasta_file_answers "c.fasta"
                (Text (">x" +:+ String LF "GG" +:+ String LF ">y" +:+ String LF "TT")))
      as (_ & _ & Htext).
    destruct (Htext _ eq_refl) as (r & t & note & Hrun & Hmulti & _).
    destruct Hmulti as [-> _]; [vm_compute; lia|].
    eauto.
Defined.

(** X23: The batch script and the server tool agree: for a readable file the
    batch uses its multimer preset exactly when [analyze_fasta_file]
    recommends [submit_multimer_prediction], and its monomer preset when the
    tool recommends [submit_monomer_prediction]. *)
Theorem batch_follows_recommendation
    (input_dir name content out script : string) (cfg : Batch.config) :
  exists a recommendation estimated_time note output_dir command resources,
    analyze_fasta_file (Pathlib.join input_dir name) (Text content) =
      AnalysisReport a recommendation estimated_time note /\
    Batch.process_single_file input_dir name (Text content) out cfg script =
      Batch.Processed name a
        (if String.eqb recommendation recommend_multimer
         then Batch.model_preset_multimer cfg else Batch.model_preset_monomer cfg)
        output_dir command resources.
Proof.
  unfold analyze_fasta_file, Batch.process_single_file.
  unfold Io.analyze_fasta_content, Io.load_fasta, bind.
  destruct (Io.is_multimer (Io.analyze_sequences (Io.load_fasta_text content)));
    do 7 eexists; split; reflexivity.
Qed.

End ServerTools.
